(** * push/pushGitlab.go: pushing a commit and reconciling its merge request

    A shallow embedding of [GitlabPush], [findOrCreateGitlabMR] and
    [GetPipelineStatus].  The three functions talk to the outside world (two
    git subprocesses, the process environment, two tickers and four calls of
    the GitLab client).  They are written here as terms of a small free monad
    over the calls they make; an arbitrary stateful environment answers the
    calls, and running a term yields its result together with the ordered
    trace of calls and answers. *)

From Stdlib Require Import String Ascii List ZArith Bool Lia.
Import ListNotations.
Local Open Scope string_scope.
Local Open Scope list_scope.

(** ** Strings (package strings and fmt) *)

(** The line feed byte, and the one-byte string holding it (the Go literal
    written with a backslash and an n). *)
Definition lf : ascii := "010"%char.
Definition LF : string := String lf EmptyString.

(** [strings.HasPrefix(s, prefix)] answered with the rest of [s]. *)
Fixpoint TrimPrefix (s prefix : string) : option string :=
  match prefix with
  | EmptyString => Some s
  | String p prefix' =>
      match s with
      | EmptyString => None
      | String c s' => if Ascii.eqb c p then TrimPrefix s' prefix' else None
      end
  end.

(** [strings.Cut(s, sep)]: the text before and after the first occurrence of
    [sep] in [s], or [None] when [sep] does not occur. *)
Fixpoint Cut (s sep : string) : option (string * string) :=
  match TrimPrefix s sep with
  | Some after => Some (EmptyString, after)
  | None =>
      match s with
      | EmptyString => None
      | String c s' =>
          match Cut s' sep with
          | Some (before, after) => Some (String c before, after)
          | None => None
          end
      end
  end.

(** [strings.Contains(s, substr)]. *)
Definition Contains (s substr : string) : bool :=
  match Cut s substr with
  | Some _ => true
  | None => false
  end.

(** [strings.SplitN(s, sep, n)] for a non-empty separator and [n >= 0]: at
    most [n] pieces, the last one being the unsplit remainder. *)
Fixpoint SplitN (s sep : string) (n : nat) : list string :=
  match n with
  | O => []
  | S O => [s]
  | S n' =>
      match Cut s sep with
      | Some (before, after) => before :: SplitN after sep n'
      | None => [s]
      end
  end.

(** ** Errors *)

(** A Go [error] value.  The code makes its own with [errors.New] and
    receives others from the GitLab client; of the latter it only ever
    observes the text of the [Error] method. *)
Inductive error : Type :=
| errors_New (text : string)
| client_error (text : string).

Definition Error (e : error) : string :=
  match e with
  | errors_New text => text
  | client_error text => text
  end.

(** ** Data model *)

(** [Command], [Input] and [Output] are declared in a sibling file of the
    package; the fields are those named by the specification and used here. *)
Record Command : Type := mkCommand {
  Path : string;
  Args : list string
}.

Record Input : Type := mkInput {
  PlanDir : string;
  BranchName : string;
  CommitMessage : string;
  PRBody : string;
  RepoOwner : string;
  RepoName : string;
  PRAssignee : string
}.

Record Output : Type := mkOutput {
  Success : bool;
  CommitSHA : string;
  PullRequestNumber : Z;
  PullRequestURL : string;
  PullRequestCombinedStatus : string;
  PullRequestAssignee : string;
  CircleCIBuildURL : string
}.

(** The composite literal [Output{Success: false}]: every other field holds
    the zero value of its type. *)
Definition Output_failed : Output :=
  {| Success := false;
     CommitSHA := "";
     PullRequestNumber := 0%Z;
     PullRequestURL := "";
     PullRequestCombinedStatus := "";
     PullRequestAssignee := "";
     CircleCIBuildURL := "" |}.

(** The types of the GitLab client library, reduced to the fields the code
    reads or writes.  A pointer field is an [option], [nil] being [None]:
    the texts of the option structs are [*string], and the [Pipeline] of a
    merge request is a [*PipelineInfo], absent for a merge request without
    pipeline. *)
Module gitlab.

Record Client : Type := mkClient {
  token : string;
  baseURL : string
}.

Record PipelineInfo : Type := mkPipelineInfo {
  Ref : string;
  Status : string
}.

Record MergeRequest : Type := mkMergeRequest {
  ID : Z;
  Title : string;
  Description : string;
  SHA : string;
  WebURL : string;
  Pipeline : option PipelineInfo
}.

End gitlab.

Module CreateMergeRequestOptions.
Record t : Type := mk {
  Title : option string;
  Description : option string;
  SourceBranch : option string;
  TargetBranch : option string
}.
End CreateMergeRequestOptions.

Module ListMergeRequestsOptions.
Record t : Type := mk {
  SourceBranch : option string;
  TargetBranch : option string;
  State : option string
}.
End ListMergeRequestsOptions.

Module UpdateMergeRequestOptions.
Record t : Type := mk {
  Title : option string;
  Description : option string;
  TargetBranch : option string
}.
End UpdateMergeRequestOptions.

Module ListProjectPipelinesOptions.
Record t : Type := mk {
  SHA : option string
}.
End ListProjectPipelinesOptions.

(** A [*time.Ticker], known by its identity only. *)
Inductive Ticker : Type :=
| ticker (id : nat).

(** ** Calls to the outside world *)

(** What the code asks of its environment, indexed by the type of the
    answer.  A call of the GitLab client answers with a value or with an
    error; [CombinedOutput] answers with the captured output and an optional
    error, as [exec.Cmd.CombinedOutput] does; [Receive t] is the blocking
    receive [<-t.C], whose value is dropped (a ticker that never ticks again
    is not modelled: every receive is answered). *)
Inductive call : Type -> Type :=
| CombinedOutput (dir : string) (cmd : Command) : call (string * option error)
| Getenv (key : string) : call string
| Receive (t : Ticker) : call unit
| CreateMergeRequest (client : gitlab.Client) (pid : string)
    (opt : CreateMergeRequestOptions.t) : call (gitlab.MergeRequest + error)
| ListMergeRequests (client : gitlab.Client)
    (opt : ListMergeRequestsOptions.t) : call (list gitlab.MergeRequest + error)
| UpdateMergeRequest (client : gitlab.Client) (pid : string) (mergeRequest : Z)
    (opt : UpdateMergeRequestOptions.t) : call (gitlab.MergeRequest + error)
| ListProjectPipelines (client : gitlab.Client) (pid : string)
    (opt : ListProjectPipelinesOptions.t) : call (list gitlab.PipelineInfo + error).

(** Programs: a result, a run-time panic, or a call and what follows it. *)
Inductive prog (A : Type) : Type :=
| Ret (a : A)
| Panic
| Do (X : Type) (c : call X) (k : X -> prog A).

Arguments Ret {A} a.
Arguments Panic {A}.
Arguments Do {A X} c k.

Fixpoint bind {A B : Type} (p : prog A) (f : A -> prog B) : prog B :=
  match p with
  | Ret a => f a
  | Panic => Panic
  | Do c k => Do c (fun x => bind (k x) f)
  end.

Definition perform {X : Type} (c : call X) : prog X := Do c Ret.

Declare Scope prog_scope.
Delimit Scope prog_scope with prog.
Notation "x <- p ;; q" := (bind p (fun x => q))
  (at level 100, p at next level, right associativity) : prog_scope.
Notation "' pat <- p ;; q" := (bind p (fun x => match x with pat => q end))
  (at level 100, pat pattern, p at next level, right associativity) : prog_scope.
Local Open Scope prog_scope.

(** One entry of a trace: a call together with the answer it got. *)
Inductive event : Type :=
| Ran (dir : string) (cmd : Command) (answer : string * option error)
| ReadEnv (key : string) (answer : string)
| Received (t : Ticker)
| Created (client : gitlab.Client) (pid : string)
    (opt : CreateMergeRequestOptions.t) (answer : gitlab.MergeRequest + error)
| Listed (client : gitlab.Client) (opt : ListMergeRequestsOptions.t)
    (answer : list gitlab.MergeRequest + error)
| Updated (client : gitlab.Client) (pid : string) (mergeRequest : Z)
    (opt : UpdateMergeRequestOptions.t) (answer : gitlab.MergeRequest + error)
| PipelinesListed (client : gitlab.Client) (pid : string)
    (opt : ListProjectPipelinesOptions.t)
    (answer : list gitlab.PipelineInfo + error).

Definition Entry {X : Type} (c : call X) : X -> event :=
  match c in call X return X -> event with
  | CombinedOutput dir cmd => Ran dir cmd
  | Getenv key => ReadEnv key
  | Receive t => fun _ => Received t
  | CreateMergeRequest client pid opt => Created client pid opt
  | ListMergeRequests client opt => Listed client opt
  | UpdateMergeRequest client pid mr opt => Updated client pid mr opt
  | ListProjectPipelines client pid opt => PipelinesListed client pid opt
  end.

Inductive outcome (A : Type) : Type :=
| Returned (a : A)
| Panicked.

Arguments Returned {A} a.
Arguments Panicked {A}.

(** An environment with states in [S]: it answers every call and moves on. *)
Definition world (S : Type) : Type := forall X : Type, call X -> S -> X * S.

(** Running a program in an environment: its outcome, the final state of the
    environment and the calls made, oldest first. *)
Fixpoint run {S A : Type} (w : world S) (p : prog A) (s : S)
  : outcome A * S * list event :=
  match p with
  | Ret a => (Returned a, s, [])
  | Panic => (Panicked, s, [])
  | Do c k =>
      let (x, s1) := w _ c s in
      let '(o, s2, tr) := run w (k x) s1 in
      (o, s2, Entry c x :: tr)
  end.

Definition result {S A : Type} (r : outcome A * S * list event) : outcome A :=
  fst (fst r).
Definition final {S A : Type} (r : outcome A * S * list event) : S :=
  snd (fst r).
Definition trace {S A : Type} (r : outcome A * S * list event) : list event :=
  snd r.

(** Dereferencing a pointer and indexing a slice panic on [nil] and out of
    range. *)
Definition deref {A : Type} (p : option A) : prog A :=
  match p with
  | Some a => Ret a
  | None => Panic
  end.

Definition index {A : Type} (l : list A) (i : nat) : prog A :=
  match nth_error l i with
  | Some a => Ret a
  | None => Panic
  end.

(** ** The code *)

(** Modelled from the spec: the helper [different] of the package, which the
    reconciler calls and which is declared in a sibling file.  The
    specification describes its answer as pointer/value inequality of the
    existing text against the desired one: two present texts differ when
    their values do, and a present text differs from an absent one. *)
Definition different (s1 s2 : option string) : bool :=
  match s1, s2 with
  | Some a, Some b => negb (String.eqb a b)
  | None, None => false
  | _, _ => true
  end.

(** Lines 46 to 54 of [GitlabPush]: the title and the body of the merge
    request, from the commit message and the override body. *)
Definition titleAndBody (input : Input) : string * string :=
  let title := CommitMessage input in
  let body := "" in
  let splitMsg := SplitN (CommitMessage input) LF 2 in
  if Nat.eqb (length splitMsg) 2 then
    let title := nth 0 splitMsg "" in
    if String.eqb (PRBody input) "" then
      let body := nth 1 splitMsg "" in
      (title, body)
    else (title, body)
  else (title, body).

(** Lines 80 to 119.  The returned pair is Go's pointer to a merge request
    and error; the context argument is not used by the function. *)
Definition findOrCreateGitlabMR (client : gitlab.Client) (owner name : string)
    (pull : CreateMergeRequestOptions.t) (githubLimiter pushLimiter : Ticker)
  : prog (option gitlab.MergeRequest * option error) :=
  let prStatus := "opened" in
  _ <- perform (Receive pushLimiter) ;;
  _ <- perform (Receive githubLimiter) ;;
  let pid := (owner ++ "/" ++ name)%string in
  created <- perform (CreateMergeRequest client pid pull) ;;
  match created with
  | inr err =>
      if Contains (Error err) "merge request already exists" then
        _ <- perform (Receive githubLimiter) ;;
        listed <- perform (ListMergeRequests client
          {| ListMergeRequestsOptions.SourceBranch :=
               CreateMergeRequestOptions.SourceBranch pull;
             ListMergeRequestsOptions.TargetBranch :=
               CreateMergeRequestOptions.TargetBranch pull;
             ListMergeRequestsOptions.State := Some prStatus |}) ;;
        match listed with
        | inr err => Ret (None, Some err)
        | inl existingMRs =>
            if negb (Nat.eqb (length existingMRs) 1) then
              Ret (None, Some (errors_New "unexpected: found more than 1 MR for branch"))
            else
              pr <- index existingMRs 0 ;;
              if different (Some (gitlab.Title pr)) (CreateMergeRequestOptions.Title pull)
                 || different (Some (gitlab.Description pr))
                      (CreateMergeRequestOptions.Description pull)
              then
                title <- deref (CreateMergeRequestOptions.Title pull) ;;
                description <- deref (CreateMergeRequestOptions.Description pull) ;;
                (* pr and existingMRs[0] are the same object *)
                let pr :=
                  {| gitlab.ID := gitlab.ID pr;
                     gitlab.Title := title;
                     gitlab.Description := description;
                     gitlab.SHA := gitlab.SHA pr;
                     gitlab.WebURL := gitlab.WebURL pr;
                     gitlab.Pipeline := gitlab.Pipeline pr |} in
                _ <- perform (Receive githubLimiter) ;;
                updated <- perform (UpdateMergeRequest client pid (gitlab.ID pr)
                  {| UpdateMergeRequestOptions.Title := None;
                     UpdateMergeRequestOptions.Description := None;
                     UpdateMergeRequestOptions.TargetBranch :=
                       CreateMergeRequestOptions.TargetBranch pull |}) ;;
                match updated with
                | inr err => Ret (None, Some err)
                | inl pr => Ret (Some pr, None)
                end
              else Ret (Some pr, None)
        end
      else Ret (None, Some err)
  | inl newMR => Ret (Some newMR, None)
  end.

(** Lines 122 to 131. *)
Definition GetPipelineStatus (client : gitlab.Client) (owner name : string)
    (opts : ListProjectPipelinesOptions.t) : prog (string * option error) :=
  let pid := (owner ++ "/" ++ name)%string in
  listed <- perform (ListProjectPipelines client pid opts) ;;
  match listed with
  | inr _ => Ret ("", Some (errors_New "unexpected: cannot get pipeline status"))
  | inl pipeline =>
      if Nat.eqb (length pipeline) 0 then Ret ("No pipeline was found", None)
      else
        first <- index pipeline 0 ;;
        Ret (gitlab.Status first, None)
  end.

(** Lines 16 to 78.  The context only reaches the two git subprocesses, whose
    answers the environment gives; the client is the token and the base URL
    read from the process environment. *)
Definition GitlabPush (input : Input) (githubLimiter pushLimiter : Ticker)
  : prog (Output * option error) :=
  let cmd := {| Path := "git"; Args := ["log"; "-1"; "--pretty=format:%H"] |} in
  '(gitLogOutput, err) <- perform (CombinedOutput (PlanDir input) cmd) ;;
  match err with
  | Some _ => Ret (Output_failed, Some (errors_New gitLogOutput))
  | None =>
      let gitHeadBranch := ("HEAD:" ++ BranchName input)%string in
      let cmd := {| Path := "git"; Args := ["push"; "-f"; "origin"; gitHeadBranch] |} in
      '(output, err) <- perform (CombinedOutput (PlanDir input) cmd) ;;
      match err with
      | Some _ => Ret (Output_failed, Some (errors_New output))
      | None =>
          token <- perform (Getenv "GITLAB_API_TOKEN") ;;
          url <- perform (Getenv "GITLAB_URL") ;;
          let client := {| gitlab.token := token; gitlab.baseURL := url |} in
          let head := BranchName input in
          let base := "master" in
          let '(title, body) := titleAndBody input in
          '(pr, err) <- findOrCreateGitlabMR client (RepoOwner input) (RepoName input)
            {| CreateMergeRequestOptions.Title := Some title;
               CreateMergeRequestOptions.Description := Some body;
               CreateMergeRequestOptions.SourceBranch := Some head;
               CreateMergeRequestOptions.TargetBranch := Some base |}
            githubLimiter pushLimiter ;;
          match err with
          | Some err => Ret (Output_failed, Some err)
          | None =>
              pr <- deref pr ;;
              '(pipelineStatus, err) <- GetPipelineStatus client (RepoOwner input)
                (RepoName input)
                {| ListProjectPipelinesOptions.SHA := Some (gitlab.SHA pr) |} ;;
              match err with
              | Some err => Ret (Output_failed, Some err)
              | None =>
                  pipelineInfo <- deref (gitlab.Pipeline pr) ;;
                  Ret ({| Success := true;
                          CommitSHA := gitlab.SHA pr;
                          PullRequestNumber := gitlab.ID pr;
                          PullRequestURL := gitlab.WebURL pr;
                          PullRequestCombinedStatus := pipelineStatus;
                          PullRequestAssignee := PRAssignee input;
                          CircleCIBuildURL := gitlab.Ref pipelineInfo |}, None)
              end
          end
      end
  end.

(** ** Observations on traces *)

Definition is_create (e : event) : bool :=
  match e with Created _ _ _ _ => true | _ => false end.
Definition is_list (e : event) : bool :=
  match e with Listed _ _ _ => true | _ => false end.
Definition is_update (e : event) : bool :=
  match e with Updated _ _ _ _ _ => true | _ => false end.

(** The text the reconciler looks for in the error of a failed creation. *)
Definition already_exists (e : error) : bool :=
  Contains (Error e) "merge request already exists".

(** A step of [GitlabPush] whose answer makes the function give up: a git
    command that exits with an error, a creation refused for another reason
    than an existing merge request, a failed listing or one that does not
    hold exactly one merge request, a failed update, a failed pipeline
    listing. *)
Definition step_failed (e : event) : bool :=
  match e with
  | Ran _ _ (_, Some _) => true
  | Created _ _ _ (inr err) => negb (already_exists err)
  | Listed _ _ (inr _) => true
  | Listed _ _ (inl existingMRs) => negb (Nat.eqb (length existingMRs) 1)
  | Updated _ _ _ _ (inr _) => true
  | PipelinesListed _ _ _ (inr _) => true
  | _ => false
  end.

(** A text without line feed. *)
Definition newline_free (s : string) : Prop :=
  ~ In (lf) (list_ascii_of_string s).

(** ** The shapes of a run *)

(** The options of the listing and of the update, as the reconciler builds
    them from the options of the creation. *)
Definition listOptions (pull : CreateMergeRequestOptions.t)
  : ListMergeRequestsOptions.t :=
  {| ListMergeRequestsOptions.SourceBranch := CreateMergeRequestOptions.SourceBranch pull;
     ListMergeRequestsOptions.TargetBranch := CreateMergeRequestOptions.TargetBranch pull;
     ListMergeRequestsOptions.State := Some "opened" |}.

Definition updateOptions (pull : CreateMergeRequestOptions.t)
  : UpdateMergeRequestOptions.t :=
  {| UpdateMergeRequestOptions.Title := None;
     UpdateMergeRequestOptions.Description := None;
     UpdateMergeRequestOptions.TargetBranch := CreateMergeRequestOptions.TargetBranch pull |}.

(** The four shapes a run of the reconciler can take, with the result of
    each: the creation settles it; the creation finds a merge request in the
    way and the listing settles it; the listed merge request needs an update;
    or the listed one differs but the desired text is a nil pointer. *)
Inductive reconciled (client : gitlab.Client) (pid : string)
    (pull : CreateMergeRequestOptions.t) (githubLimiter pushLimiter : Ticker)
  : outcome (option gitlab.MergeRequest * option error) -> list event -> Prop :=
| by_creation newMR :
    reconciled client pid pull githubLimiter pushLimiter
      (Returned (Some newMR, None))
      [Received pushLimiter; Received githubLimiter;
       Created client pid pull (inl newMR)]
| creation_failed err :
    already_exists err = false ->
    reconciled client pid pull githubLimiter pushLimiter
      (Returned (None, Some err))
      [Received pushLimiter; Received githubLimiter;
       Created client pid pull (inr err)]
| listing_failed conflict err :
    already_exists conflict = true ->
    reconciled client pid pull githubLimiter pushLimiter
      (Returned (None, Some err))
      [Received pushLimiter; Received githubLimiter;
       Created client pid pull (inr conflict);
       Received githubLimiter; Listed client (listOptions pull) (inr err)]
| not_exactly_one conflict existingMRs :
    already_exists conflict = true ->
    length existingMRs <> 1 ->
    reconciled client pid pull githubLimiter pushLimiter
      (Returned (None, Some (errors_New "unexpected: found more than 1 MR for branch")))
      [Received pushLimiter; Received githubLimiter;
       Created client pid pull (inr conflict);
       Received githubLimiter; Listed client (listOptions pull) (inl existingMRs)]
| up_to_date conflict pr :
    already_exists conflict = true ->
    different (Some (gitlab.Title pr)) (CreateMergeRequestOptions.Title pull) = false ->
    different (Some (gitlab.Description pr))
      (CreateMergeRequestOptions.Description pull) = false ->
    reconciled client pid pull githubLimiter pushLimiter
      (Returned (Some pr, None))
      [Received pushLimiter; Received githubLimiter;
       Created client pid pull (inr conflict);
       Received githubLimiter; Listed client (listOptions pull) (inl [pr])]
| nil_text conflict pr :
    already_exists conflict = true ->
    different (Some (gitlab.Title pr)) (CreateMergeRequestOptions.Title pull)
    || different (Some (gitlab.Description pr))
         (CreateMergeRequestOptions.Description pull) = true ->
    CreateMergeRequestOptions.Title pull = None \/
    CreateMergeRequestOptions.Description pull = None ->
    reconciled client pid pull githubLimiter pushLimiter
      Panicked
      [Received pushLimiter; Received githubLimiter;
       Created client pid pull (inr conflict);
       Received githubLimiter; Listed client (listOptions pull) (inl [pr])]
| by_update conflict pr title description answer :
    already_exists conflict = true ->
    CreateMergeRequestOptions.Title pull = Some title ->
    CreateMergeRequestOptions.Description pull = Some description ->
    gitlab.Title pr <> title \/ gitlab.Description pr <> description ->
    reconciled client pid pull githubLimiter pushLimiter
      (match answer with
       | inl updated => Returned (Some updated, None)
       | inr err => Returned (None, Some err)
       end)
      [Received pushLimiter; Received githubLimiter;
       Created client pid pull (inr conflict);
       Received githubLimiter; Listed client (listOptions pull) (inl [pr]);
       Received githubLimiter;
       Updated client pid (gitlab.ID pr) (updateOptions pull) answer].

(** What [GetPipelineStatus] returns for an answer of the listing. *)
Definition statusOf (listed : list gitlab.PipelineInfo + error)
  : string * option error :=
  match listed with
  | inr _ => ("", Some (errors_New "unexpected: cannot get pipeline status"))
  | inl [] => ("No pipeline was found", None)
  | inl (first :: _) => (gitlab.Status first, None)
  end.

Definition gitLogCommand : Command :=
  {| Path := "git"; Args := ["log"; "-1"; "--pretty=format:%H"] |}.

Definition gitPushCommand (input : Input) : Command :=
  {| Path := "git";
     Args := ["push"; "-f"; "origin"; ("HEAD:" ++ BranchName input)%string] |}.

(** The options [GitlabPush] hands to the reconciler. *)
Definition desired (input : Input) : CreateMergeRequestOptions.t :=
  {| CreateMergeRequestOptions.Title := Some (fst (titleAndBody input));
     CreateMergeRequestOptions.Description := Some (snd (titleAndBody input));
     CreateMergeRequestOptions.SourceBranch := Some (BranchName input);
     CreateMergeRequestOptions.TargetBranch := Some "master" |}.

(** The calls that come before the reconciler, once both git commands went
    through. *)
Definition preamble (input : Input) (sha pushOutput token url : string)
  : list event :=
  [Ran (PlanDir input) gitLogCommand (sha, None);
   Ran (PlanDir input) (gitPushCommand input) (pushOutput, None);
   ReadEnv "GITLAB_API_TOKEN" token;
   ReadEnv "GITLAB_URL" url].

(** The [Output] of the successful path. *)
Definition Output_of (input : Input) (pr : gitlab.MergeRequest)
    (pipelineStatus : string) (pipelineInfo : gitlab.PipelineInfo) : Output :=
  {| Success := true;
     CommitSHA := gitlab.SHA pr;
     PullRequestNumber := gitlab.ID pr;
     PullRequestURL := gitlab.WebURL pr;
     PullRequestCombinedStatus := pipelineStatus;
     PullRequestAssignee := PRAssignee input;
     CircleCIBuildURL := gitlab.Ref pipelineInfo |}.

(** The six ways a run of [GitlabPush] can go. *)
Inductive pushed (input : Input) (githubLimiter pushLimiter : Ticker)
  : outcome (Output * option error) -> list event -> Prop :=
| log_failed output err :
    pushed input githubLimiter pushLimiter
      (Returned (Output_failed, Some (errors_New output)))
      [Ran (PlanDir input) gitLogCommand (output, Some err)]
| push_failed sha output err :
    pushed input githubLimiter pushLimiter
      (Returned (Output_failed, Some (errors_New output)))
      [Ran (PlanDir input) gitLogCommand (sha, None);
       Ran (PlanDir input) (gitPushCommand input) (output, Some err)]
| reconciler_failed sha pushOutput token url err tr :
    reconciled {| gitlab.token := token; gitlab.baseURL := url |}
      (RepoOwner input ++ "/" ++ RepoName input)%string (desired input)
      githubLimiter pushLimiter (Returned (None, Some err)) tr ->
    pushed input githubLimiter pushLimiter
      (Returned (Output_failed, Some err))
      (preamble input sha pushOutput token url ++ tr)
| pipeline_failed sha pushOutput token url pr tr err :
    reconciled {| gitlab.token := token; gitlab.baseURL := url |}
      (RepoOwner input ++ "/" ++ RepoName input)%string (desired input)
      githubLimiter pushLimiter (Returned (Some pr, None)) tr ->
    pushed input githubLimiter pushLimiter
      (Returned (Output_failed,
                 Some (errors_New "unexpected: cannot get pipeline status")))
      (preamble input sha pushOutput token url ++ tr ++
       [PipelinesListed {| gitlab.token := token; gitlab.baseURL := url |}
          (RepoOwner input ++ "/" ++ RepoName input)%string
          {| ListProjectPipelinesOptions.SHA := Some (gitlab.SHA pr) |}
          (inr err)])
| no_pipeline_info sha pushOutput token url pr tr pipeline :
    reconciled {| gitlab.token := token; gitlab.baseURL := url |}
      (RepoOwner input ++ "/" ++ RepoName input)%string (desired input)
      githubLimiter pushLimiter (Returned (Some pr, None)) tr ->
    gitlab.Pipeline pr = None ->
    pushed input githubLimiter pushLimiter
      Panicked
      (preamble input sha pushOutput token url ++ tr ++
       [PipelinesListed {| gitlab.token := token; gitlab.baseURL := url |}
          (RepoOwner input ++ "/" ++ RepoName input)%string
          {| ListProjectPipelinesOptions.SHA := Some (gitlab.SHA pr) |}
          (inl pipeline)])
| all_done sha pushOutput token url pr tr pipeline pipelineInfo :
    reconciled {| gitlab.token := token; gitlab.baseURL := url |}
      (RepoOwner input ++ "/" ++ RepoName input)%string (desired input)
      githubLimiter pushLimiter (Returned (Some pr, None)) tr ->
    gitlab.Pipeline pr = Some pipelineInfo ->
    pushed input githubLimiter pushLimiter
      (Returned (Output_of input pr (fst (statusOf (inl pipeline))) pipelineInfo,
                 None))
      (preamble input sha pushOutput token url ++ tr ++
       [PipelinesListed {| gitlab.token := token; gitlab.baseURL := url |}
          (RepoOwner input ++ "/" ++ RepoName input)%string
          {| ListProjectPipelinesOptions.SHA := Some (gitlab.SHA pr) |}
          (inl pipeline)]).

(** ** Environments to run the code in *)

(** An environment without memory that answers from a fixed script. *)
Record Script : Type := mkScript {
  gitLog : string * option error;
  gitPush : string * option error;
  environ : string -> string;
  onCreate : gitlab.MergeRequest + error;
  onList : list gitlab.MergeRequest + error;
  onUpdate : gitlab.MergeRequest + error;
  onPipelines : list gitlab.PipelineInfo + error
}.

Definition scripted (sc : Script) : world unit :=
  fun X c s =>
    (match c in call X return X with
     | CombinedOutput _ cmd =>
         match Args cmd with
         | "log" :: _ => gitLog sc
         | _ => gitPush sc
         end
     | Getenv key => environ sc key
     | Receive _ => tt
     | CreateMergeRequest _ _ _ => onCreate sc
     | ListMergeRequests _ _ => onList sc
     | UpdateMergeRequest _ _ _ _ => onUpdate sc
     | ListProjectPipelines _ _ _ => onPipelines sc
     end, s).

(** A small stand-in for a GitLab project: it remembers the open merge
    requests with their branches, refuses to open a second one for the same
    pair of branches, lists by branches and answers an update with the merge
    request of that number. *)
Module Fake.

Record row : Type := mkRow {
  source : option string;
  target : option string;
  mr : gitlab.MergeRequest
}.

Definition same (a b : option string) : bool := negb (different a b).

Definition matches (s t : option string) (r : row) : bool :=
  same (source r) s && same (target r) t.

Definition text (o : option string) : string :=
  match o with Some s => s | None => "" end.

Definition conflict : error :=
  client_error "409 Another open merge request already exists for this source branch".

Definition gone : error := client_error "404 Not Found".

Definition server : world (list row) :=
  fun X c st =>
    match c in call X return X * list row with
    | CombinedOutput _ _ => (("0123abcd", None), st)
    | Getenv _ => ("", st)
    | Receive _ => (tt, st)
    | CreateMergeRequest _ _ opt =>
        let s := CreateMergeRequestOptions.SourceBranch opt in
        let t := CreateMergeRequestOptions.TargetBranch opt in
        if existsb (matches s t) st then (inr conflict, st)
        else
          let new :=
            {| gitlab.ID := Z.of_nat (S (length st));
               gitlab.Title := text (CreateMergeRequestOptions.Title opt);
               gitlab.Description := text (CreateMergeRequestOptions.Description opt);
               gitlab.SHA := "0123abcd";
               gitlab.WebURL := "";
               gitlab.Pipeline := None |} in
          (inl new, st ++ [ {| source := s; target := t; mr := new |} ])
    | ListMergeRequests _ opt =>
        (inl (map mr (filter (matches (ListMergeRequestsOptions.SourceBranch opt)
                                (ListMergeRequestsOptions.TargetBranch opt)) st)), st)
    | UpdateMergeRequest _ _ id _ =>
        match find (fun r => Z.eqb (gitlab.ID (mr r)) id) st with
        | Some r => (inl (mr r), st)
        | None => (inr gone, st)
        end
    | ListProjectPipelines _ _ _ => (inl [], st)
    end.

End Fake.

(** Inputs and environments for concrete runs. *)
Module Examples.

Definition githubLimiter : Ticker := ticker 0.
Definition pushLimiter : Ticker := ticker 1.

Definition client : gitlab.Client :=
  {| gitlab.token := "secret"; gitlab.baseURL := "https://gitlab.example/api/v4" |}.

Definition pull : CreateMergeRequestOptions.t :=
  {| CreateMergeRequestOptions.Title := Some "Fix bug";
     CreateMergeRequestOptions.Description := Some "Details here";
     CreateMergeRequestOptions.SourceBranch := Some "fix-1";
     CreateMergeRequestOptions.TargetBranch := Some "master" |}.

(** An open merge request for the same branches under another title. *)
Definition stale : gitlab.MergeRequest :=
  {| gitlab.ID := 7;
     gitlab.Title := "Work in progress";
     gitlab.Description := "Details here";
     gitlab.SHA := "0123abcd";
     gitlab.WebURL := "https://gitlab.example/pipedrive/microplane/merge_requests/7";
     gitlab.Pipeline := Some {| gitlab.Ref := "fix-1"; gitlab.Status := "running" |} |}.

Definition one_stale : list Fake.row :=
  [ {| Fake.source := Some "fix-1"; Fake.target := Some "master"; Fake.mr := stale |} ].

(** A script in which everything goes well. *)
Definition smooth : Script :=
  {| gitLog := ("0123abcd", None);
     gitPush := ("", None);
     environ := fun _ => "";
     onCreate := inl stale;
     onList := inl [stale];
     onUpdate := inl stale;
     onPipelines := inl [] |}.

(** The creation is refused for a reason of its own. *)
Definition forbidden : Script :=
  {| gitLog := ("0123abcd", None);
     gitPush := ("", None);
     environ := fun _ => "";
     onCreate := inr (client_error "403 Forbidden");
     onList := inl [stale];
     onUpdate := inl stale;
     onPipelines := inl [] |}.

(** The creation finds a merge request in the way, the listing finds none. *)
Definition vanished : Script :=
  {| gitLog := ("0123abcd", None);
     gitPush := ("", None);
     environ := fun _ => "";
     onCreate := inr Fake.conflict;
     onList := inl [];
     onUpdate := inl stale;
     onPipelines := inl [] |}.

(** The listing of pipelines fails, in two ways. *)
Definition unavailable : Script :=
  {| gitLog := ("0123abcd", None);
     gitPush := ("", None);
     environ := fun _ => "";
     onCreate := inl stale;
     onList := inl [stale];
     onUpdate := inl stale;
     onPipelines := inr (client_error "503 Service Unavailable") |}.

Definition unauthorized : Script :=
  {| gitLog := ("0123abcd", None);
     gitPush := ("", None);
     environ := fun _ => "";
     onCreate := inl stale;
     onList := inl [stale];
     onUpdate := inl stale;
     onPipelines := inr (client_error "401 Unauthorized") |}.

Definition by_sha : ListProjectPipelinesOptions.t :=
  {| ListProjectPipelinesOptions.SHA := Some "0123abcd" |}.

Definition fix_bug : Input :=
  {| PlanDir := "/tmp/plan";
     BranchName := "fix-1";
     CommitMessage := ("Fix bug" ++ LF ++ LF ++ "Details here")%string;
     PRBody := "";
     RepoOwner := "pipedrive";
     RepoName := "microplane";
     PRAssignee := "" |}.

Definition one_line : Input :=
  {| PlanDir := "/tmp/plan";
     BranchName := "fix-1";
     CommitMessage := "Fix bug";
     PRBody := "";
     RepoOwner := "pipedrive";
     RepoName := "microplane";
     PRAssignee := "" |}.

Definition with_override : Input :=
  {| PlanDir := "/tmp/plan";
     BranchName := "fix-1";
     CommitMessage := "Fix bug";
     PRBody := "Override";
     RepoOwner := "pipedrive";
     RepoName := "microplane";
     PRAssignee := "" |}.

End Examples.

(** ** Further observations and runs *)

Definition is_receive (e : event) : bool :=
  match e with Received _ => true | _ => false end.

(** A call of the merge request API: a creation, a listing or an update. *)
Definition is_mr_call (e : event) : bool :=
  is_create e || is_list e || is_update e.

Definition is_git (e : event) : bool :=
  match e with Ran _ _ _ => true | _ => false end.

Definition is_env (e : event) : bool :=
  match e with ReadEnv _ _ => true | _ => false end.

Definition is_pipelines (e : event) : bool :=
  match e with PipelinesListed _ _ _ _ => true | _ => false end.

(** How many events of a trace pass a test. *)
Definition count (p : event -> bool) (tr : list event) : nat :=
  length (filter p tr).

(** The error the reconciler makes up itself. *)
Definition not_one_MR : error :=
  errors_New "unexpected: found more than 1 MR for branch".

(** The error [GitlabPush] returns when [e] is the step that failed: the
    output of a git command, the error of a call of the merge request API,
    the fixed error of a failed pipeline listing, and the reconciler's own
    error for a listing without error. *)
Definition error_of (e : event) : error :=
  match e with
  | Ran _ _ (output, _) => errors_New output
  | Created _ _ _ (inr err) => err
  | Listed _ _ (inr err) => err
  | Updated _ _ _ _ (inr err) => err
  | PipelinesListed _ _ _ (inr _) =>
      errors_New "unexpected: cannot get pipeline status"
  | _ => not_one_MR
  end.

Module Runs.

(** The merge request of [Examples.stale] once it carries the desired texts. *)
Definition current : gitlab.MergeRequest :=
  {| gitlab.ID := 7;
     gitlab.Title := "Fix bug";
     gitlab.Description := "Details here";
     gitlab.SHA := "89abcdef";
     gitlab.WebURL := "https://gitlab.example/pipedrive/microplane/merge_requests/7";
     gitlab.Pipeline := Some {| gitlab.Ref := "fix-1"; gitlab.Status := "success" |} |}.

Definition script (log push : string * option error)
    (create : gitlab.MergeRequest + error)
    (listing : list gitlab.MergeRequest + error)
    (update : gitlab.MergeRequest + error)
    (pipelines : list gitlab.PipelineInfo + error) : Script :=
  {| gitLog := log;
     gitPush := push;
     environ := fun key => if String.eqb key "GITLAB_URL" then "https://gitlab.example" else "secret";
     onCreate := create;
     onList := listing;
     onUpdate := update;
     onPipelines := pipelines |}.

Definition fine : string * option error := ("0123abcd", None).

Definition not_a_repository : string * option error :=
  ("fatal: not a git repository", Some (errors_New "exit status 128")).

Definition rejected : string * option error :=
  ("remote: permission denied", Some (errors_New "exit status 1")).

Definition green : list gitlab.PipelineInfo + error :=
  inl [ {| gitlab.Ref := "fix-1"; gitlab.Status := "success" |};
        {| gitlab.Ref := "fix-1"; gitlab.Status := "failed" |} ].

Definition log_fails : Script :=
  script not_a_repository fine (inl Examples.stale) (inl []) (inl Examples.stale) green.

Definition push_fails : Script :=
  script fine rejected (inl Examples.stale) (inl []) (inl Examples.stale) green.

Definition created : Script :=
  script fine fine (inl current) (inl []) (inl Examples.stale) green.

Definition list_fails : Script :=
  script fine fine (inr Fake.conflict) (inr (client_error "500 Internal Server Error"))
    (inl Examples.stale) green.

Definition up_to_date : Script :=
  script fine fine (inr Fake.conflict) (inl [current]) (inl Examples.stale) green.

Definition retitled : Script :=
  script fine fine (inr Fake.conflict) (inl [Examples.stale]) (inl current) green.

Definition update_fails : Script :=
  script fine fine (inr Fake.conflict) (inl [Examples.stale])
    (inr (client_error "403 Forbidden")) green.

Definition twins : Script :=
  script fine fine (inr Fake.conflict) (inl [Examples.stale; current])
    (inl current) green.

Definition pipelines_fail : Script :=
  script fine fine (inl current) (inl []) (inl current)
    (inr (client_error "503 Service Unavailable")).

(** The client [GitlabPush] builds under [script]. *)
Definition client : gitlab.Client :=
  {| gitlab.token := "secret"; gitlab.baseURL := "https://gitlab.example" |}.

End Runs.


Arguments Contains : simpl never.
Arguments already_exists : simpl never.
Arguments titleAndBody : simpl never.
Arguments different : simpl never.


(** ** Facts about the string functions *)

Section Strings.

Lemma TrimPrefix_nil (s : string) : TrimPrefix s "" = Some s.
Proof. destruct s; reflexivity. Qed.

Lemma TrimPrefix_sound (prefix s rest : string) :
  TrimPrefix s prefix = Some rest -> s = (prefix ++ rest)%string.
Proof.
  revert s; induction prefix as [|p prefix IH]; intros s H.
  - rewrite TrimPrefix_nil in H. now injection H.
  - destruct s as [|c s]; simpl in H; [discriminate|].
    destruct (Ascii.eqb_spec c p) as [->|]; [|discriminate].
    simpl. f_equal. now apply IH.
Qed.

Lemma TrimPrefix_complete (prefix rest : string) :
  TrimPrefix (prefix ++ rest) prefix = Some rest.
Proof.
  induction prefix as [|p prefix IH]; simpl.
  - apply TrimPrefix_nil.
  - now rewrite Ascii.eqb_refl.
Qed.

Lemma Cut_eq (s sep : string) :
  Cut s sep =
  match TrimPrefix s sep with
  | Some after => Some (EmptyString, after)
  | None =>
      match s with
      | EmptyString => None
      | String c s' =>
          match Cut s' sep with
          | Some (before, after) => Some (String c before, after)
          | None => None
          end
      end
  end.
Proof. destruct s; reflexivity. Qed.

(** What [Cut] finds is a decomposition of the text around the separator. *)
Lemma Cut_sound (sep s before after : string) :
  Cut s sep = Some (before, after) -> s = (before ++ sep ++ after)%string.
Proof.
  revert before; induction s as [|c s IH]; intros before H;
    rewrite Cut_eq in H.
  - destruct (TrimPrefix "" sep) eqn:E; [|discriminate].
    injection H as <- <-. simpl. now apply TrimPrefix_sound.
  - destruct (TrimPrefix (String c s) sep) eqn:E.
    + injection H as <- <-. simpl. now apply TrimPrefix_sound.
    + destruct (Cut s sep) as [[b a]|]; [|discriminate].
      injection H as <- <-. simpl. f_equal. now apply IH.
Qed.

(** A text that holds the separator is cut somewhere. *)
Lemma Cut_complete (sep before after : string) :
  Cut (before ++ sep ++ after) sep <> None.
Proof.
  induction before as [|c before IH]; rewrite Cut_eq.
  - simpl. now rewrite TrimPrefix_complete.
  - destruct (TrimPrefix _ sep); [discriminate|].
    simpl. destruct (Cut _ sep) as [[? ?]|]; [discriminate|contradiction].
Qed.

(** [Contains] is the substring test. *)
Lemma Contains_spec (s substr : string) :
  Contains s substr = true <->
  exists before after, s = (before ++ substr ++ after)%string.
Proof.
  unfold Contains; split.
  - destruct (Cut s substr) as [[b a]|] eqn:E; [|discriminate].
    intros _. exists b, a. now apply Cut_sound.
  - intros (b & a & ->).
    destruct (Cut _ substr) eqn:E; [reflexivity|].
    now apply Cut_complete in E.
Qed.

(** Cutting at a line feed stops at the first one. *)
Lemma Cut_LF_first (before after : string) :
  newline_free before ->
  Cut (before ++ LF ++ after) LF = Some (before, after).
Proof.
  unfold newline_free.
  induction before as [|c before IH]; intros Hfree.
  - rewrite Cut_eq. simpl. now rewrite TrimPrefix_nil.
  - simpl in Hfree. rewrite Cut_eq.
    change ((String c before ++ LF ++ after)%string)
      with (String c (before ++ LF ++ after)%string).
    unfold LF at 2. simpl TrimPrefix.
    destruct (Ascii.eqb_spec c (lf)) as [->|Hc].
    + exfalso. apply Hfree. now left.
    + rewrite IH; [reflexivity|]. intro Hin. apply Hfree. now right.
Qed.

Lemma Cut_LF_none (s : string) :
  newline_free s -> Cut s LF = None.
Proof.
  unfold newline_free.
  induction s as [|c s IH]; intros Hfree.
  - reflexivity.
  - simpl in Hfree. rewrite Cut_eq. unfold LF at 1. simpl TrimPrefix.
    destruct (Ascii.eqb_spec c (lf)) as [->|Hc].
    + exfalso. apply Hfree. now left.
    + rewrite IH; [reflexivity|]. intro Hin. apply Hfree. now right.
Qed.

(** [SplitN(s, sep, 2)], as the code calls it. *)
Lemma SplitN_2 (s sep : string) :
  SplitN s sep 2 =
  match Cut s sep with
  | Some (before, after) => [before; after]
  | None => [s]
  end.
Proof. simpl. now destruct (Cut s sep) as [[? ?]|]. Qed.

End Strings.

(** The title and body the code derives, by the shape of the message. *)
Lemma titleAndBody_split (input : Input) (before after : string) :
  CommitMessage input = (before ++ LF ++ after)%string ->
  newline_free before ->
  titleAndBody input =
  (before, if String.eqb (PRBody input) "" then after else "").
Proof.
  intros Hmsg Hfree. unfold titleAndBody.
  rewrite SplitN_2, Hmsg, Cut_LF_first by assumption.
  simpl. now destruct (String.eqb (PRBody input) "").
Qed.

Lemma titleAndBody_single_line (input : Input) :
  newline_free (CommitMessage input) ->
  titleAndBody input = (CommitMessage input, "").
Proof.
  intros Hfree. unfold titleAndBody.
  now rewrite SplitN_2, Cut_LF_none by assumption.
Qed.

(** ** Running programs *)

Lemma run_bind {S A B : Type} (w : world S) (p : prog A) (f : A -> prog B) (s : S) :
  run w (bind p f) s =
  match result (run w p s) with
  | Returned a =>
      let r := run w (f a) (final (run w p s)) in
      (result r, final r, trace (run w p s) ++ trace r)
  | Panicked => (Panicked, final (run w p s), trace (run w p s))
  end.
Proof.
  unfold result, final, trace.
  revert s; induction p as [a| |X c k IH]; intros s; simpl.
  - now destruct (run w (f a) s) as [[o s'] tr].
  - reflexivity.
  - destruct (w X c s) as [x s1]. rewrite IH.
    destruct (run w (k x) s1) as [[o s2] tr]; simpl.
    destruct o; [|reflexivity].
    now destruct (run w (f a) s2) as [[o' s3] tr'].
Qed.

(** Destructs the answer the environment gives to the next call. *)
Ltac answer_as a :=
  match goal with
  | w : world _ |- context [?f ?X ?c ?s] =>
      constr_eq f w;
      let s' := fresh "s" in
      destruct (w X c s) as [a s'] eqn:?
  end.

Tactic Notation "answer" "as" simple_intropattern(a) := answer_as a.

Lemma different_false (a b : string) :
  different (Some a) (Some b) = false <-> a = b.
Proof.
  unfold different. destruct (String.eqb_spec a b); simpl; split; congruence.
Qed.

(** Every run of the reconciler has one of the shapes above. *)
Lemma findOrCreateGitlabMR_reconciled {S : Type} (w : world S) (s : S)
    (client : gitlab.Client) (owner name : string)
    (pull : CreateMergeRequestOptions.t) (githubLimiter pushLimiter : Ticker) :
  let r := run w (findOrCreateGitlabMR client owner name pull
                    githubLimiter pushLimiter) s in
  reconciled client (owner ++ "/" ++ name)%string pull githubLimiter pushLimiter
    (result r) (trace r).
Proof.
  unfold findOrCreateGitlabMR, result, trace; simpl.
  answer as []. answer as []. answer as [newMR|err]; simpl.
  - constructor.
  - fold (already_exists err). destruct (already_exists err) eqn:Hconflict; simpl.
    2: now constructor.
    answer as []. answer as [existingMRs|err']; simpl.
    2: now apply listing_failed.
    destruct existingMRs as [|pr [|pr' rest]]; simpl.
    1, 3: now apply not_exactly_one.
    fold (listOptions pull).
    destruct (different (Some (gitlab.Title pr)) (CreateMergeRequestOptions.Title pull)
              || different (Some (gitlab.Description pr))
                   (CreateMergeRequestOptions.Description pull)) eqn:Hdiff.
    + destruct (CreateMergeRequestOptions.Title pull) as [title|] eqn:Htitle; simpl.
      2: apply nil_text; auto; now rewrite Htitle.
      destruct (CreateMergeRequestOptions.Description pull)
        as [description|] eqn:Hdescription; simpl.
      2: apply nil_text; auto; now rewrite Htitle, Hdescription.
      answer as []. answer as a5. fold (updateOptions pull).
      assert (Hne : gitlab.Title pr <> title \/ gitlab.Description pr <> description).
      { apply orb_true_iff in Hdiff as [H|H]; [left|right]; intros E;
          apply different_false in E; congruence. }
      pose proof (by_update client (owner ++ "/" ++ name)%string pull
                    githubLimiter pushLimiter err pr title description a5
                    Hconflict Htitle Hdescription Hne) as Hshape.
      destruct a5; exact Hshape.
    + apply orb_false_iff in Hdiff as [Ht Hd]. simpl. now apply up_to_date.
Qed.

(** Brings in the shape of a run of the reconciler and splits by it. *)
Ltac by_shape w s client owner name pull gh pl :=
  let H := fresh "Hshape" in
  pose proof (findOrCreateGitlabMR_reconciled w s client owner name pull gh pl) as H;
  cbv zeta in H;
  destruct (run w (findOrCreateGitlabMR client owner name pull gh pl) s)
    as [[?o ?s] ?tr];
  unfold result, trace in *; simpl fst in *; simpl snd in *;
  inversion H; subst; clear H.

(** Reads the membership of an event in an explicit trace. *)
Ltac sift :=
  repeat match goal with
    | H : In _ (_ :: _) |- _ => destruct H as [H|H]
    | H : In _ [] |- _ => contradiction H
    | H : @eq event _ _ |- _ => first [discriminate H | inversion H; subst; clear H]
    end.

(** ** The reconciler *)

(** C1: after a creation refused with a text holding "merge request already
    exists", the open merge requests of the source and target branch are
    listed; when the listing holds exactly one and its title or description
    is not the desired one, an update is issued for it; when it holds none or
    several, the fixed error "unexpected: found more than 1 MR for branch" is
    returned and no update is issued. *)
Theorem conflict_is_settled_by_the_listing {S : Type} (w : world S) (s : S)
    (client : gitlab.Client) (owner name : string)
    (pull : CreateMergeRequestOptions.t) (githubLimiter pushLimiter : Ticker)
    (err : error) :
  let pid := (owner ++ "/" ++ name)%string in
  let r := run w (findOrCreateGitlabMR client owner name pull
                    githubLimiter pushLimiter) s in
  In (Created client pid pull (inr err)) (trace r) ->
  already_exists err = true ->
  exists listed,
    In (Listed client (listOptions pull) listed) (trace r) /\
    forall existingMRs, listed = inl existingMRs ->
      (forall pr title description,
         existingMRs = [pr] ->
         CreateMergeRequestOptions.Title pull = Some title ->
         CreateMergeRequestOptions.Description pull = Some description ->
         gitlab.Title pr <> title \/ gitlab.Description pr <> description ->
         exists answer,
           In (Updated client pid (gitlab.ID pr) (updateOptions pull) answer)
              (trace r)) /\
      (length existingMRs <> 1 ->
         result r = Returned
           (None, Some (errors_New "unexpected: found more than 1 MR for branch")) /\
         filter is_update (trace r) = []).
Proof.
  intros pid r Hcreated Hconflict; subst pid r.
  by_shape w s client owner name pull githubLimiter pushLimiter; sift;
    try congruence.
  - eexists; split; [simpl; eauto 6|]. intros ? [=].
  - eexists; split; [simpl; eauto 6|]. intros ? [= <-]. split.
    + intros pr ? ? ->. now simpl in *.
    + intros _. split; reflexivity.
  - eexists; split; [simpl; eauto 6|]. intros ? [= <-]. split.
    + intros pr' title description [= <-] Ht Hd [Hne|Hne]; exfalso; apply Hne;
        apply different_false; congruence.
    + simpl; intros Hlen; now elim Hlen.
  - eexists; split; [simpl; eauto 6|]. intros ? [= <-]. split.
    + intros pr' title description [= <-] Ht Hd _.
      match goal with H : _ = None \/ _ = None |- _ => destruct H; congruence end.
    + simpl; intros Hlen; now elim Hlen.
  - eexists; split; [simpl; eauto 6|]. intros ? [= <-]. split.
    + intros pr' ? ? [= <-] _ _ _. exists answer. simpl. auto 10.
    + simpl; intros Hlen; now elim Hlen.
Qed.

(** C2: a creation that fails with a text not holding "merge request already
    exists" makes the reconciler return that very error, without any listing
    and without any update. *)
Theorem other_creation_failure_is_returned {S : Type} (w : world S) (s : S)
    (client : gitlab.Client) (owner name : string)
    (pull : CreateMergeRequestOptions.t) (githubLimiter pushLimiter : Ticker)
    (err : error) :
  let pid := (owner ++ "/" ++ name)%string in
  let r := run w (findOrCreateGitlabMR client owner name pull
                    githubLimiter pushLimiter) s in
  In (Created client pid pull (inr err)) (trace r) ->
  Contains (Error err) "merge request already exists" = false ->
  result r = Returned (None, Some err) /\
  filter is_list (trace r) = [] /\
  filter is_update (trace r) = [].
Proof.
  intros pid r Hcreated Hother; subst pid r.
  change (already_exists err = false) in Hother.
  by_shape w s client owner name pull githubLimiter pushLimiter; sift;
    try congruence.
  repeat split.
Qed.

(** C3: on a second invocation with the same desired title and description,
    when the open merge requests listed for the branches carry the desired
    title and description, no update is issued. *)
Theorem second_invocation_issues_no_update {S : Type} (w : world S) (s : S)
    (client : gitlab.Client) (owner name : string)
    (pull : CreateMergeRequestOptions.t) (githubLimiter pushLimiter : Ticker) :
  let reconcile := findOrCreateGitlabMR client owner name pull
                     githubLimiter pushLimiter in
  let first := run w reconcile s in
  let second := run w reconcile (final first) in
  (forall existingMRs pr,
     In (Listed client (listOptions pull) (inl existingMRs)) (trace second) ->
     In pr existingMRs ->
     CreateMergeRequestOptions.Title pull = Some (gitlab.Title pr) /\
     CreateMergeRequestOptions.Description pull = Some (gitlab.Description pr)) ->
  filter is_update (trace second) = [].
Proof.
  intros reconcile first second; subst reconcile second.
  generalize (final first); clear first s; intros s Hsame.
  by_shape w s client owner name pull githubLimiter pushLimiter;
    try reflexivity.
  exfalso.
  destruct (Hsame [pr] pr) as [Ht Hd]; [simpl; auto 6 | now left |].
  match goal with H : _ <> _ \/ _ <> _ |- _ => destruct H; congruence end.
Qed.

(** C8: the permits taken and the calls made, in order.  One permit of the
    push limiter and one of the shared limiter come before the creation; when
    the creation is refused because a merge request already exists, one more
    permit of the shared limiter comes before the listing; one more comes
    before the update, when there is an update and only then; nothing else is
    received. *)
Theorem permits_pace_the_calls {S : Type} (w : world S) (s : S)
    (client : gitlab.Client) (owner name : string)
    (pull : CreateMergeRequestOptions.t) (githubLimiter pushLimiter : Ticker) :
  let pid := (owner ++ "/" ++ name)%string in
  let tr := trace (run w (findOrCreateGitlabMR client owner name pull
                            githubLimiter pushLimiter) s) in
  exists created,
    let opening := [Received pushLimiter; Received githubLimiter;
                    Created client pid pull created] in
    match created with
    | inl _ => tr = opening
    | inr err =>
        if already_exists err then
          exists listed,
            tr = opening ++
                 [Received githubLimiter; Listed client (listOptions pull) listed]
            \/
            exists mergeRequest updated,
              tr = opening ++
                   [Received githubLimiter; Listed client (listOptions pull) listed;
                    Received githubLimiter;
                    Updated client pid mergeRequest (updateOptions pull) updated]
        else tr = opening
    end.
Proof.
  intros pid tr; subst pid tr.
  by_shape w s client owner name pull githubLimiter pushLimiter;
    [ now exists (inl newMR)
    | exists (inr err)
    | exists (inr conflict) ..];
    cbv zeta;
    match goal with H : already_exists _ = _ |- _ => rewrite H end;
    try reflexivity.
  - exists (inr err). now left.
  - exists (inl existingMRs). now left.
  - exists (inl [pr]). now left.
  - exists (inl [pr]). now left.
  - exists (inl [pr]). right. now exists (gitlab.ID pr), answer.
Qed.

(** ** The pipeline status reader *)

Lemma GetPipelineStatus_run {S : Type} (w : world S) (s : S)
    (client : gitlab.Client) (owner name : string)
    (opts : ListProjectPipelinesOptions.t) :
  exists listed s',
    run w (GetPipelineStatus client owner name opts) s =
    (Returned (statusOf listed), s',
     [PipelinesListed client (owner ++ "/" ++ name)%string opts listed]).
Proof.
  unfold GetPipelineStatus; simpl.
  answer as listed. exists listed; eexists.
  destruct listed as [[|first rest]|err]; reflexivity.
Qed.

(** C4: the pipeline status is "No pipeline was found" without error when the
    listing succeeds and is empty, the status of the first pipeline without
    error when the listing succeeds and is not empty, and the error
    "unexpected: cannot get pipeline status" when the listing fails.  The
    listing is the only call made. *)
Theorem pipeline_status_by_listing {S : Type} (w : world S) (s : S)
    (client : gitlab.Client) (owner name : string)
    (opts : ListProjectPipelinesOptions.t) :
  let r := run w (GetPipelineStatus client owner name opts) s in
  exists listed,
    trace r = [PipelinesListed client (owner ++ "/" ++ name)%string opts listed] /\
    match listed with
    | inl [] => result r = Returned ("No pipeline was found", None)
    | inl (first :: _) => result r = Returned (gitlab.Status first, None)
    | inr _ =>
        result r =
        Returned ("", Some (errors_New "unexpected: cannot get pipeline status"))
    end.
Proof.
  destruct (GetPipelineStatus_run w s client owner name opts) as (listed & s' & E).
  cbv zeta; rewrite E. exists listed. split; [reflexivity|].
  now destruct listed as [[|first rest]|err].
Qed.

(** C10: when the listing of pipelines fails, the status returned is the
    empty text and the error is the fixed "unexpected: cannot get pipeline
    status", whatever the listing failed with: two failures of the listing,
    in any two environments, give the same result. *)
Theorem pipeline_listing_error_is_dropped {S S' : Type}
    (w : world S) (s : S) (w' : world S') (s' : S')
    (client : gitlab.Client) (owner name : string)
    (opts : ListProjectPipelinesOptions.t) (err err' : error) :
  let pid := (owner ++ "/" ++ name)%string in
  let r := run w (GetPipelineStatus client owner name opts) s in
  let r' := run w' (GetPipelineStatus client owner name opts) s' in
  In (PipelinesListed client pid opts (inr err)) (trace r) ->
  In (PipelinesListed client pid opts (inr err')) (trace r') ->
  result r = Returned ("", Some (errors_New "unexpected: cannot get pipeline status")) /\
  result r' = result r.
Proof.
  destruct (GetPipelineStatus_run w s client owner name opts) as (listed & s1 & E).
  destruct (GetPipelineStatus_run w' s' client owner name opts) as (listed' & s1' & E').
  cbv zeta; rewrite E, E'; unfold result, trace; simpl fst; simpl snd.
  intros H H'; sift. now split.
Qed.

(** ** The whole push *)



(** The reconciler returns a merge request or an error, never both and never
    neither; it panics only on a nil title or description. *)
Lemma reconciled_result (client : gitlab.Client) (pid : string)
    (pull : CreateMergeRequestOptions.t) (githubLimiter pushLimiter : Ticker)
    (o : outcome (option gitlab.MergeRequest * option error)) (tr : list event) :
  reconciled client pid pull githubLimiter pushLimiter o tr ->
  (exists pr, o = Returned (Some pr, None)) \/
  (exists err, o = Returned (None, Some err)) \/
  (o = Panicked /\
   (CreateMergeRequestOptions.Title pull = None \/
    CreateMergeRequestOptions.Description pull = None)).
Proof.
  destruct 1; eauto.
  destruct answer; eauto.
Qed.

Lemma GitlabPush_pushed {S : Type} (w : world S) (s : S)
    (input : Input) (githubLimiter pushLimiter : Ticker) :
  let r := run w (GitlabPush input githubLimiter pushLimiter) s in
  pushed input githubLimiter pushLimiter (result r) (trace r).
Proof.
  Opaque findOrCreateGitlabMR GetPipelineStatus.
  unfold GitlabPush, result, trace; simpl.
  answer as [gitLogOutput [err|]]; simpl; [constructor|].
  answer as [output [err|]]; simpl; [constructor|].
  answer as token. answer as url.
  pose proof (eq_refl : desired input = desired input) as Hdesired.
  unfold desired at 1 in Hdesired.
  destruct (titleAndBody input) as [title body]; simpl in Hdesired.
  rewrite Hdesired, run_bind.
  pose proof (findOrCreateGitlabMR_reconciled w s3
                {| gitlab.token := token; gitlab.baseURL := url |}
                (RepoOwner input) (RepoName input) (desired input)
                githubLimiter pushLimiter) as Hshape.
  cbv zeta in Hshape.
  destruct (run w (findOrCreateGitlabMR _ _ _ (desired input) _ _) s3)
    as [[o s4] tr].
  unfold result, final, trace in *; simpl fst in *; simpl snd in *.
  destruct (reconciled_result _ _ _ _ _ _ _ Hshape)
    as [(pr & ->)|[(err & ->)|(_ & [H|H])]]; try discriminate H.
  - simpl.
    destruct (GetPipelineStatus_run w s4
                {| gitlab.token := token; gitlab.baseURL := url |}
                (RepoOwner input) (RepoName input)
                {| ListProjectPipelinesOptions.SHA := Some (gitlab.SHA pr) |})
      as (listed & s5 & E).
    rewrite run_bind, E; unfold result, final, trace; simpl.
    destruct listed as [pipeline|err].
    + replace (statusOf (inl pipeline))
        with (fst (statusOf (inl pipeline)), @None error)
        by now destruct pipeline.
      simpl. destruct (gitlab.Pipeline pr) as [pipelineInfo|] eqn:Hinfo; simpl.
      * exact (all_done input githubLimiter pushLimiter gitLogOutput output
                 token url pr tr pipeline pipelineInfo Hshape Hinfo).
      * exact (no_pipeline_info input githubLimiter pushLimiter gitLogOutput
                 output token url pr tr pipeline Hshape Hinfo).
    + simpl. exact (pipeline_failed input githubLimiter pushLimiter gitLogOutput
               output token url pr tr err Hshape).
  - simpl. rewrite app_nil_r.
    exact (reconciler_failed input githubLimiter pushLimiter gitLogOutput
             output token url err tr Hshape).
  Transparent findOrCreateGitlabMR GetPipelineStatus.
Qed.

(** The one creation in a run of the reconciler carries the options the
    reconciler was given. *)
Lemma reconciled_created (client : gitlab.Client) (pid : string)
    (pull : CreateMergeRequestOptions.t) (githubLimiter pushLimiter : Ticker)
    (o : outcome (option gitlab.MergeRequest * option error)) (tr : list event)
    (client' : gitlab.Client) (pid' : string)
    (opt : CreateMergeRequestOptions.t) (answer : gitlab.MergeRequest + error) :
  reconciled client pid pull githubLimiter pushLimiter o tr ->
  In (Created client' pid' opt answer) tr ->
  client' = client /\ pid' = pid /\ opt = pull.
Proof.
  destruct 1; intros Hin; sift; auto.
Qed.

(** Whether a step of the reconciler failed shows in what it returns. *)
Lemma reconciled_step_failed (client : gitlab.Client) (pid : string)
    (pull : CreateMergeRequestOptions.t) (githubLimiter pushLimiter : Ticker)
    (o : outcome (option gitlab.MergeRequest * option error)) (tr : list event) :
  reconciled client pid pull githubLimiter pushLimiter o tr ->
  match o with
  | Returned (Some _, None) => existsb step_failed tr = false
  | Returned (None, Some _) => existsb step_failed tr = true
  | _ => True
  end.
Proof.
  destruct 1; simpl; trivial;
    repeat match goal with
      | H : already_exists _ = _ |- _ => rewrite H; clear H
      end; simpl; trivial.
  - destruct existingMRs as [|? [|? ?]]; simpl; trivial. now elim H0.
  - now destruct answer.
Qed.

(** The creation issued by [GitlabPush] carries the derived title and body,
    the pushed branch as source and master as target. *)
Lemma pushed_created (input : Input) (githubLimiter pushLimiter : Ticker)
    (o : outcome (Output * option error)) (tr : list event)
    (client : gitlab.Client) (pid : string)
    (opt : CreateMergeRequestOptions.t) (answer : gitlab.MergeRequest + error) :
  pushed input githubLimiter pushLimiter o tr ->
  In (Created client pid opt answer) tr ->
  opt = desired input.
Proof.
  destruct 1; unfold preamble; cbn [app]; intros Hin; sift;
    repeat (apply in_app_or in Hin; destruct Hin as [Hin|Hin]); sift;
    match goal with
    | H : reconciled _ _ _ _ _ _ _ |- _ =>
        now destruct (reconciled_created _ _ _ _ _ _ _ _ _ _ _ H Hin) as (_ & _ & ->)
    end.
Qed.

Lemma titleAndBody_override (input : Input) :
  PRBody input <> "" -> snd (titleAndBody input) = "".
Proof.
  intros Hbody. unfold titleAndBody.
  destruct (Nat.eqb _ 2); [|reflexivity].
  now destruct (String.eqb_spec (PRBody input) "").
Qed.

(** C5: without an override body, a commit message that holds a line feed
    gives the creation the text before the first line feed as title and the
    text after it as description; a commit message without line feed is the
    title as a whole. *)
Theorem title_and_description_from_commit_message {S : Type} (w : world S) (s : S)
    (input : Input) (githubLimiter pushLimiter : Ticker)
    (client : gitlab.Client) (pid : string)
    (opt : CreateMergeRequestOptions.t) (answer : gitlab.MergeRequest + error) :
  In (Created client pid opt answer)
     (trace (run w (GitlabPush input githubLimiter pushLimiter) s)) ->
  (forall before after,
     PRBody input = "" ->
     CommitMessage input = (before ++ LF ++ after)%string ->
     newline_free before ->
     CreateMergeRequestOptions.Title opt = Some before /\
     CreateMergeRequestOptions.Description opt = Some after) /\
  (newline_free (CommitMessage input) ->
   CreateMergeRequestOptions.Title opt = Some (CommitMessage input)).
Proof.
  intros Hin.
  rewrite (pushed_created _ _ _ _ _ _ _ _ _ (GitlabPush_pushed w s input _ _) Hin).
  unfold desired; simpl. split.
  - intros before after Hbody Hmsg Hfree.
    rewrite (titleAndBody_split input before after Hmsg Hfree), Hbody.
    now split.
  - intros Hfree. now rewrite titleAndBody_single_line.
Qed.

(** C6: with an override body, the description handed to the creation is the
    empty text, not the override: the code tests the override but never
    copies it into the body. *)
Theorem override_body_is_not_sent {S : Type} (w : world S) (s : S)
    (input : Input) (githubLimiter pushLimiter : Ticker)
    (client : gitlab.Client) (pid : string)
    (opt : CreateMergeRequestOptions.t) (answer : gitlab.MergeRequest + error) :
  PRBody input <> "" ->
  In (Created client pid opt answer)
     (trace (run w (GitlabPush input githubLimiter pushLimiter) s)) ->
  CreateMergeRequestOptions.Description opt = Some "" /\
  CreateMergeRequestOptions.Description opt <> Some (PRBody input).
Proof.
  intros Hbody Hin.
  rewrite (pushed_created _ _ _ _ _ _ _ _ _ (GitlabPush_pushed w s input _ _) Hin).
  unfold desired; simpl. rewrite titleAndBody_override by assumption.
  split; [reflexivity|]. intros [= E]. now apply Hbody.
Qed.

(** C7, amended: for the commit message "Fix bug", two line feeds, "Details
    here" and no override body, the title is "Fix bug" and the description is
    a line feed followed by "Details here". *)
Theorem example_title_and_description {S : Type} (w : world S) (s : S)
    (input : Input) (githubLimiter pushLimiter : Ticker)
    (client : gitlab.Client) (pid : string)
    (opt : CreateMergeRequestOptions.t) (answer : gitlab.MergeRequest + error) :
  CommitMessage input = ("Fix bug" ++ LF ++ LF ++ "Details here")%string ->
  PRBody input = "" ->
  In (Created client pid opt answer)
     (trace (run w (GitlabPush input githubLimiter pushLimiter) s)) ->
  CreateMergeRequestOptions.Title opt = Some "Fix bug" /\
  CreateMergeRequestOptions.Description opt = Some (LF ++ "Details here")%string.
Proof.
  intros Hmsg Hbody Hin.
  rewrite (pushed_created _ _ _ _ _ _ _ _ _ (GitlabPush_pushed w s input _ _) Hin).
  unfold desired, titleAndBody; rewrite Hmsg, Hbody. now split.
Qed.

(** C9: when a step fails (a git command, the reconciler, the pipeline
    lookup), [GitlabPush] returns an error and an [Output] whose [Success] is
    false and whose other fields are all zero; an [Output] whose [Success] is
    true is returned only when no step fails, and then without error. *)
Theorem output_is_zero_unless_all_steps_succeed {S : Type} (w : world S) (s : S)
    (input : Input) (githubLimiter pushLimiter : Ticker) :
  let r := run w (GitlabPush input githubLimiter pushLimiter) s in
  if existsb step_failed (trace r) then
    exists out err,
      result r = Returned (out, Some err) /\
      Success out = false /\
      CommitSHA out = "" /\
      PullRequestNumber out = 0%Z /\
      PullRequestURL out = "" /\
      PullRequestCombinedStatus out = "" /\
      PullRequestAssignee out = "" /\
      CircleCIBuildURL out = ""
  else
    result r = Panicked \/
    exists out, result r = Returned (out, None) /\ Success out = true.
Proof.
  intros r. pose proof (GitlabPush_pushed w s input githubLimiter pushLimiter) as H.
  cbv zeta in H. fold r in H.
  destruct H;
    repeat match goal with
      | H : reconciled _ _ _ _ _ _ _ |- _ =>
          apply reconciled_step_failed in H; simpl in H
      end;
    unfold preamble; simpl;
    rewrite ?existsb_app; simpl;
    repeat match goal with H : existsb _ _ = _ |- _ => rewrite H end;
    simpl; eauto 12.
Qed.

Lemma conflict_is_settled_by_the_listing_witness :
  let pid := "pipedrive/microplane" in
  let r := run Fake.server
             (findOrCreateGitlabMR Examples.client "pipedrive" "microplane"
                Examples.pull Examples.githubLimiter Examples.pushLimiter)
             Examples.one_stale in
  let r' := run (scripted Examples.vanished)
              (findOrCreateGitlabMR Examples.client "pipedrive" "microplane"
                 Examples.pull Examples.githubLimiter Examples.pushLimiter) tt in
  (In (Created Examples.client pid Examples.pull (inr Fake.conflict)) (trace r) /\
   already_exists Fake.conflict = true /\
   exists answer,
     In (Updated Examples.client pid 7 (updateOptions Examples.pull) answer)
        (trace r)) /\
  (In (Created Examples.client pid Examples.pull (inr Fake.conflict)) (trace r') /\
   result r' = Returned
     (None, Some (errors_New "unexpected: found more than 1 MR for branch")) /\
   filter is_update (trace r') = []).
Proof.
  intros pid r r'.
  assert (Hr : In (Created Examples.client pid Examples.pull (inr Fake.conflict))
                  (trace r)) by (right; right; left; reflexivity).
  assert (Hr' : In (Created Examples.client pid Examples.pull (inr Fake.conflict))
                   (trace r')) by (right; right; left; reflexivity).
  split.
  - split; [exact Hr|]. split; [reflexivity|].
    destruct (conflict_is_settled_by_the_listing Fake.server Examples.one_stale
                Examples.client "pipedrive" "microplane" Examples.pull
                Examples.githubLimiter Examples.pushLimiter Fake.conflict
                Hr eq_refl) as (listed & Hlisted & Hcases).
    destruct Hlisted as [H|[H|[H|[H|[H|[H|[H|[]]]]]]]]; try discriminate H.
    injection H as <-.
    destruct (Hcases [Examples.stale] eq_refl) as [Hone _].
    apply (Hone Examples.stale "Fix bug" "Details here");
      [reflexivity | reflexivity | reflexivity | left; discriminate].
  - split; [exact Hr'|].
    destruct (conflict_is_settled_by_the_listing (scripted Examples.vanished) tt
                Examples.client "pipedrive" "microplane" Examples.pull
                Examples.githubLimiter Examples.pushLimiter Fake.conflict
                Hr' eq_refl) as (listed & Hlisted & Hcases).
    destruct Hlisted as [H|[H|[H|[H|[H|[]]]]]]; try discriminate H.
    injection H as <-.
    destruct (Hcases [] eq_refl) as [_ Hnone].
    apply Hnone. discriminate.
Defined.

Lemma other_creation_failure_is_returned_witness :
  let pid := "pipedrive/microplane" in
  let r := run (scripted Examples.forbidden)
             (findOrCreateGitlabMR Examples.client "pipedrive" "microplane"
                Examples.pull Examples.githubLimiter Examples.pushLimiter) tt in
  In (Created Examples.client pid Examples.pull (inr (client_error "403 Forbidden")))
     (trace r) /\
  Contains "403 Forbidden" "merge request already exists" = false /\
  result r = Returned (None, Some (client_error "403 Forbidden")) /\
  filter is_list (trace r) = [] /\
  filter is_update (trace r) = [].
Proof.
  intros pid r.
  assert (Hr : In (Created Examples.client pid Examples.pull
                     (inr (client_error "403 Forbidden"))) (trace r))
    by (right; right; left; reflexivity).
  split; [exact Hr|]. split; [reflexivity|].
  exact (other_creation_failure_is_returned (scripted Examples.forbidden) tt
           Examples.client "pipedrive" "microplane" Examples.pull
           Examples.githubLimiter Examples.pushLimiter
           (client_error "403 Forbidden") Hr eq_refl).
Defined.

Lemma second_invocation_issues_no_update_witness :
  let reconcile := findOrCreateGitlabMR Examples.client "pipedrive" "microplane"
                     Examples.pull Examples.githubLimiter Examples.pushLimiter in
  let first := run Fake.server reconcile [] in
  let second := run Fake.server reconcile (final first) in
  (forall existingMRs pr,
     In (Listed Examples.client (listOptions Examples.pull) (inl existingMRs))
        (trace second) ->
     In pr existingMRs ->
     CreateMergeRequestOptions.Title Examples.pull = Some (gitlab.Title pr) /\
     CreateMergeRequestOptions.Description Examples.pull
     = Some (gitlab.Description pr)) /\
  length (filter is_list (trace second)) = 1 /\
  filter is_update (trace second) = [].
Proof.
  intros reconcile first second.
  assert (Hsame : forall existingMRs pr,
            In (Listed Examples.client (listOptions Examples.pull) (inl existingMRs))
               (trace second) ->
            In pr existingMRs ->
            CreateMergeRequestOptions.Title Examples.pull = Some (gitlab.Title pr) /\
            CreateMergeRequestOptions.Description Examples.pull
            = Some (gitlab.Description pr)).
  { intros existingMRs pr Hin Hpr.
    destruct Hin as [H|[H|[H|[H|[H|[]]]]]]; try discriminate H.
    injection H as <-.
    destruct Hpr as [<-|[]]. split; reflexivity. }
  split; [exact Hsame|]. split; [reflexivity|].
  exact (second_invocation_issues_no_update Fake.server [] Examples.client
           "pipedrive" "microplane" Examples.pull Examples.githubLimiter
           Examples.pushLimiter Hsame).
Defined.

Lemma title_and_description_from_commit_message_witness :
  let pid := "pipedrive/microplane" in
  let client := {| gitlab.token := ""; gitlab.baseURL := "" |} in
  let r := run (scripted Examples.smooth)
             (GitlabPush Examples.fix_bug Examples.githubLimiter
                Examples.pushLimiter) tt in
  let r' := run (scripted Examples.smooth)
              (GitlabPush Examples.one_line Examples.githubLimiter
                 Examples.pushLimiter) tt in
  (In (Created client pid (desired Examples.fix_bug) (inl Examples.stale)) (trace r) /\
   PRBody Examples.fix_bug = "" /\
   CommitMessage Examples.fix_bug
   = ("Fix bug" ++ LF ++ (LF ++ "Details here"))%string /\
   newline_free "Fix bug" /\
   CreateMergeRequestOptions.Title (desired Examples.fix_bug) = Some "Fix bug" /\
   CreateMergeRequestOptions.Description (desired Examples.fix_bug)
   = Some (LF ++ "Details here")%string) /\
  (In (Created client pid (desired Examples.one_line) (inl Examples.stale)) (trace r') /\
   newline_free (CommitMessage Examples.one_line) /\
   CreateMergeRequestOptions.Title (desired Examples.one_line) = Some "Fix bug").
Proof.
  intros pid client r r'.
  assert (Hr : In (Created client pid (desired Examples.fix_bug) (inl Examples.stale))
                  (trace r))
    by (do 6 right; left; reflexivity).
  assert (Hr' : In (Created client pid (desired Examples.one_line) (inl Examples.stale))
                   (trace r'))
    by (do 6 right; left; reflexivity).
  assert (Hfree : newline_free "Fix bug")
    by (intros [H|[H|[H|[H|[H|[H|[H|[]]]]]]]]; discriminate H).
  split.
  - split; [exact Hr|]. split; [reflexivity|]. split; [reflexivity|].
    split; [exact Hfree|].
    exact (proj1 (title_and_description_from_commit_message
                    (scripted Examples.smooth) tt Examples.fix_bug
                    Examples.githubLimiter Examples.pushLimiter client pid
                    (desired Examples.fix_bug) (inl Examples.stale) Hr)
             "Fix bug" (LF ++ "Details here")%string eq_refl eq_refl Hfree).
  - split; [exact Hr'|]. split; [exact Hfree|].
    exact (proj2 (title_and_description_from_commit_message
                    (scripted Examples.smooth) tt Examples.one_line
                    Examples.githubLimiter Examples.pushLimiter client pid
                    (desired Examples.one_line) (inl Examples.stale) Hr')
             Hfree).
Defined.

Lemma override_body_is_not_sent_witness :
  let pid := "pipedrive/microplane" in
  let client := {| gitlab.token := ""; gitlab.baseURL := "" |} in
  let r := run (scripted Examples.smooth)
             (GitlabPush Examples.with_override Examples.githubLimiter
                Examples.pushLimiter) tt in
  PRBody Examples.with_override <> "" /\
  In (Created client pid (desired Examples.with_override) (inl Examples.stale))
     (trace r) /\
  CreateMergeRequestOptions.Description (desired Examples.with_override) = Some "" /\
  CreateMergeRequestOptions.Description (desired Examples.with_override)
  <> Some "Override".
Proof.
  intros pid client r.
  assert (Hbody : PRBody Examples.with_override <> "") by discriminate.
  assert (Hr : In (Created client pid (desired Examples.with_override)
                     (inl Examples.stale)) (trace r))
    by (do 6 right; left; reflexivity).
  split; [exact Hbody|]. split; [exact Hr|].
  exact (override_body_is_not_sent (scripted Examples.smooth) tt
           Examples.with_override Examples.githubLimiter Examples.pushLimiter
           client pid (desired Examples.with_override) (inl Examples.stale)
           Hbody Hr).
Defined.

Lemma example_title_and_description_witness :
  let pid := "pipedrive/microplane" in
  let client := {| gitlab.token := ""; gitlab.baseURL := "" |} in
  let r := run (scripted Examples.smooth)
             (GitlabPush Examples.fix_bug Examples.githubLimiter
                Examples.pushLimiter) tt in
  CommitMessage Examples.fix_bug = ("Fix bug" ++ LF ++ LF ++ "Details here")%string /\
  PRBody Examples.fix_bug = "" /\
  In (Created client pid (desired Examples.fix_bug) (inl Examples.stale)) (trace r) /\
  CreateMergeRequestOptions.Title (desired Examples.fix_bug) = Some "Fix bug" /\
  CreateMergeRequestOptions.Description (desired Examples.fix_bug)
  = Some (LF ++ "Details here")%string.
Proof.
  intros pid client r.
  assert (Hr : In (Created client pid (desired Examples.fix_bug) (inl Examples.stale))
                  (trace r))
    by (do 6 right; left; reflexivity).
  split; [reflexivity|]. split; [reflexivity|]. split; [exact Hr|].
  exact (example_title_and_description (scripted Examples.smooth) tt
           Examples.fix_bug Examples.githubLimiter Examples.pushLimiter
           client pid (desired Examples.fix_bug) (inl Examples.stale)
           eq_refl eq_refl Hr).
Defined.

(** C7 as the specification has it fails: the description handed to the
    creation is not "Details here". *)
Lemma example_description_keeps_its_line_feed :
  ~ (forall (client : gitlab.Client) (pid : string)
       (opt : CreateMergeRequestOptions.t) (answer : gitlab.MergeRequest + error),
       In (Created client pid opt answer)
          (trace (run (scripted Examples.smooth)
                    (GitlabPush Examples.fix_bug Examples.githubLimiter
                       Examples.pushLimiter) tt)) ->
       CreateMergeRequestOptions.Title opt = Some "Fix bug" /\
       CreateMergeRequestOptions.Description opt = Some "Details here").
Proof.
  intros Hclaim.
  destruct (Hclaim {| gitlab.token := ""; gitlab.baseURL := "" |}
              "pipedrive/microplane" (desired Examples.fix_bug)
              (inl Examples.stale)) as [_ Hdescription].
  - do 6 right; left; reflexivity.
  - discriminate Hdescription.
Qed.

Lemma pipeline_listing_error_is_dropped_witness :
  let pid := "pipedrive/microplane" in
  let r := run (scripted Examples.unavailable)
             (GetPipelineStatus Examples.client "pipedrive" "microplane"
                Examples.by_sha) tt in
  let r' := run (scripted Examples.unauthorized)
              (GetPipelineStatus Examples.client "pipedrive" "microplane"
                 Examples.by_sha) tt in
  In (PipelinesListed Examples.client pid Examples.by_sha
        (inr (client_error "503 Service Unavailable"))) (trace r) /\
  In (PipelinesListed Examples.client pid Examples.by_sha
        (inr (client_error "401 Unauthorized"))) (trace r') /\
  result r = Returned ("", Some (errors_New "unexpected: cannot get pipeline status")) /\
  result r' = result r.
Proof.
  intros pid r r'.
  assert (Hr : In (PipelinesListed Examples.client pid Examples.by_sha
                     (inr (client_error "503 Service Unavailable"))) (trace r))
    by (left; reflexivity).
  assert (Hr' : In (PipelinesListed Examples.client pid Examples.by_sha
                      (inr (client_error "401 Unauthorized"))) (trace r'))
    by (left; reflexivity).
  split; [exact Hr|]. split; [exact Hr'|].
  exact (pipeline_listing_error_is_dropped (scripted Examples.unavailable) tt
           (scripted Examples.unauthorized) tt Examples.client
           "pipedrive" "microplane" Examples.by_sha
           (client_error "503 Service Unavailable")
           (client_error "401 Unauthorized") Hr Hr').
Defined.

(** ** Concrete runs *)

(** A push that goes through, call by call. *)
Example smooth_push :
  run (scripted Examples.smooth)
    (GitlabPush Examples.fix_bug Examples.githubLimiter Examples.pushLimiter) tt
  = (Returned
       ({| Success := true;
           CommitSHA := "0123abcd";
           PullRequestNumber := 7;
           PullRequestURL :=
             "https://gitlab.example/pipedrive/microplane/merge_requests/7";
           PullRequestCombinedStatus := "No pipeline was found";
           PullRequestAssignee := "";
           CircleCIBuildURL := "fix-1" |}, None),
     tt,
     [Ran "/tmp/plan" gitLogCommand ("0123abcd", None);
      Ran "/tmp/plan" (gitPushCommand Examples.fix_bug) ("", None);
      ReadEnv "GITLAB_API_TOKEN" "";
      ReadEnv "GITLAB_URL" "";
      Received Examples.pushLimiter;
      Received Examples.githubLimiter;
      Created {| gitlab.token := ""; gitlab.baseURL := "" |} "pipedrive/microplane"
        (desired Examples.fix_bug) (inl Examples.stale);
      PipelinesListed {| gitlab.token := ""; gitlab.baseURL := "" |}
        "pipedrive/microplane" Examples.by_sha (inl [])]).
Proof. reflexivity. Qed.

(** Reconciling twice against the stand-in project: the first run opens the
    merge request, the second finds it in the way, lists it and leaves it
    alone. *)
Example reconcile_twice :
  let reconcile := findOrCreateGitlabMR Examples.client "pipedrive" "microplane"
                     Examples.pull Examples.githubLimiter Examples.pushLimiter in
  let first := run Fake.server reconcile [] in
  let second := run Fake.server reconcile (final first) in
  map is_create (trace first) = [false; false; true] /\
  result second = result first /\
  trace second =
    [Received Examples.pushLimiter;
     Received Examples.githubLimiter;
     Created Examples.client "pipedrive/microplane" Examples.pull (inr Fake.conflict);
     Received Examples.githubLimiter;
     Listed Examples.client (listOptions Examples.pull)
       (inl [ {| gitlab.ID := 1;
                 gitlab.Title := "Fix bug";
                 gitlab.Description := "Details here";
                 gitlab.SHA := "0123abcd";
                 gitlab.WebURL := "";
                 gitlab.Pipeline := None |} ])].
Proof. repeat split. Qed.

(** A stale title is met with an update that carries the target branch only. *)
Example stale_title_is_updated :
  trace (run Fake.server
           (findOrCreateGitlabMR Examples.client "pipedrive" "microplane"
              Examples.pull Examples.githubLimiter Examples.pushLimiter)
           Examples.one_stale)
  = [Received Examples.pushLimiter;
     Received Examples.githubLimiter;
     Created Examples.client "pipedrive/microplane" Examples.pull (inr Fake.conflict);
     Received Examples.githubLimiter;
     Listed Examples.client (listOptions Examples.pull) (inl [Examples.stale]);
     Received Examples.githubLimiter;
     Updated Examples.client "pipedrive/microplane" 7
       {| UpdateMergeRequestOptions.Title := None;
          UpdateMergeRequestOptions.Description := None;
          UpdateMergeRequestOptions.TargetBranch := Some "master" |}
       (inl Examples.stale)].
Proof. reflexivity. Qed.

(** The split of the example message of the specification. *)
Example split_fix_bug :
  SplitN ("Fix bug" ++ LF ++ LF ++ "Details here") LF 2
  = ["Fix bug"; (LF ++ "Details here")%string].
Proof. reflexivity. Qed.

(** ** More on the reconciler *)

(** Reads a result that depends on the answer of the update. *)
Ltac by_answer :=
  repeat match goal with
    | H : match ?a with inl _ => _ | inr _ => _ end = _ |- _ =>
        destruct a; try discriminate H
    | H : Returned _ = Returned _ |- _ => inversion H; subst; clear H
    | H : Returned _ = Panicked |- _ => discriminate H
    | H : Panicked = Returned _ |- _ => discriminate H
    end.

(** X1: a creation that succeeds settles the run: the merge request it
    answers is returned, and the two permits and the creation are all that
    happened. *)
Theorem created_MR_is_returned {S : Type} (w : world S) (s : S)
    (client : gitlab.Client) (owner name : string)
    (pull : CreateMergeRequestOptions.t) (githubLimiter pushLimiter : Ticker)
    (client' : gitlab.Client) (pid' : string) (opt : CreateMergeRequestOptions.t)
    (newMR : gitlab.MergeRequest) :
  let r := run w (findOrCreateGitlabMR client owner name pull
                    githubLimiter pushLimiter) s in
  In (Created client' pid' opt (inl newMR)) (trace r) ->
  result r = Returned (Some newMR, None) /\
  trace r = [Received pushLimiter; Received githubLimiter;
             Created client (owner ++ "/" ++ name)%string pull (inl newMR)].
Proof.
  intros r Hin; subst r.
  by_shape w s client owner name pull githubLimiter pushLimiter; sift.
  now split.
Qed.

(** X2: when the listing fails, its error is returned as it is and no update
    is issued. *)
Theorem listing_failure_is_returned {S : Type} (w : world S) (s : S)
    (client : gitlab.Client) (owner name : string)
    (pull : CreateMergeRequestOptions.t) (githubLimiter pushLimiter : Ticker)
    (client' : gitlab.Client) (opt : ListMergeRequestsOptions.t) (err : error) :
  let r := run w (findOrCreateGitlabMR client owner name pull
                    githubLimiter pushLimiter) s in
  In (Listed client' opt (inr err)) (trace r) ->
  result r = Returned (None, Some err) /\
  filter is_update (trace r) = [].
Proof.
  intros r Hin; subst r.
  by_shape w s client owner name pull githubLimiter pushLimiter; sift.
  now split.
Qed.

(** X3: when the listing holds exactly one merge request and it already has
    the desired title and description, that merge request is returned and no
    update is issued. *)
Theorem up_to_date_MR_is_returned {S : Type} (w : world S) (s : S)
    (client : gitlab.Client) (owner name : string)
    (pull : CreateMergeRequestOptions.t) (githubLimiter pushLimiter : Ticker)
    (client' : gitlab.Client) (opt : ListMergeRequestsOptions.t)
    (pr : gitlab.MergeRequest) :
  let r := run w (findOrCreateGitlabMR client owner name pull
                    githubLimiter pushLimiter) s in
  In (Listed client' opt (inl [pr])) (trace r) ->
  CreateMergeRequestOptions.Title pull = Some (gitlab.Title pr) ->
  CreateMergeRequestOptions.Description pull = Some (gitlab.Description pr) ->
  result r = Returned (Some pr, None) /\
  filter is_update (trace r) = [].
Proof.
  intros r Hin Htitle Hdescription; subst r.
  by_shape w s client owner name pull githubLimiter pushLimiter; sift;
    try (now split).
  - match goal with H : _ = None \/ _ = None |- _ => destruct H; congruence end.
  - match goal with H : _ <> _ \/ _ <> _ |- _ => destruct H; congruence end.
Qed.

(** X4: an update is addressed to the one listed merge request and carries
    the target branch only: neither the desired title nor the desired
    description is in its options. *)
Theorem update_carries_target_branch_only {S : Type} (w : world S) (s : S)
    (client : gitlab.Client) (owner name : string)
    (pull : CreateMergeRequestOptions.t) (githubLimiter pushLimiter : Ticker)
    (client' : gitlab.Client) (pid' : string) (mergeRequest : Z)
    (opt : UpdateMergeRequestOptions.t) (answer : gitlab.MergeRequest + error) :
  let r := run w (findOrCreateGitlabMR client owner name pull
                    githubLimiter pushLimiter) s in
  In (Updated client' pid' mergeRequest opt answer) (trace r) ->
  client' = client /\
  pid' = (owner ++ "/" ++ name)%string /\
  UpdateMergeRequestOptions.Title opt = None /\
  UpdateMergeRequestOptions.Description opt = None /\
  UpdateMergeRequestOptions.TargetBranch opt
  = CreateMergeRequestOptions.TargetBranch pull /\
  exists pr,
    In (Listed client (listOptions pull) (inl [pr])) (trace r) /\
    mergeRequest = gitlab.ID pr.
Proof.
  intros r Hin; subst r.
  by_shape w s client owner name pull githubLimiter pushLimiter; sift.
  repeat split. exists pr. split; [simpl; auto 6 | reflexivity].
Qed.

(** X5: what the update answers is what the reconciler returns: the merge
    request of the answer, or its error. *)
Theorem update_answer_is_the_result {S : Type} (w : world S) (s : S)
    (client : gitlab.Client) (owner name : string)
    (pull : CreateMergeRequestOptions.t) (githubLimiter pushLimiter : Ticker)
    (client' : gitlab.Client) (pid' : string) (mergeRequest : Z)
    (opt : UpdateMergeRequestOptions.t) (answer : gitlab.MergeRequest + error) :
  let r := run w (findOrCreateGitlabMR client owner name pull
                    githubLimiter pushLimiter) s in
  In (Updated client' pid' mergeRequest opt answer) (trace r) ->
  result r = match answer with
             | inl updated => Returned (Some updated, None)
             | inr err => Returned (None, Some err)
             end.
Proof.
  intros r Hin; subst r.
  by_shape w s client owner name pull githubLimiter pushLimiter; sift.
  now destruct answer.
Qed.


(** X7: a merge request returned by the reconciler is one the environment
    answered with: the created one, the single listed one, or the one the
    update answered. *)
Theorem returned_MR_comes_from_a_call {S : Type} (w : world S) (s : S)
    (client : gitlab.Client) (owner name : string)
    (pull : CreateMergeRequestOptions.t) (githubLimiter pushLimiter : Ticker)
    (pr : gitlab.MergeRequest) :
  let pid := (owner ++ "/" ++ name)%string in
  let r := run w (findOrCreateGitlabMR client owner name pull
                    githubLimiter pushLimiter) s in
  result r = Returned (Some pr, None) ->
  In (Created client pid pull (inl pr)) (trace r) \/
  In (Listed client (listOptions pull) (inl [pr])) (trace r) \/
  exists mergeRequest,
    In (Updated client pid mergeRequest (updateOptions pull) (inl pr)) (trace r).
Proof.
  intros pid r Hresult; subst pid r.
  by_shape w s client owner name pull githubLimiter pushLimiter; by_answer;
    simpl; eauto 12.
Qed.

(** X8: an error returned by the reconciler is accounted for by the trace:
    it is the error of a creation refused for another reason than an existing
    merge request, the error of the listing, the error of the update, or the
    reconciler's own error for a listing that does not hold exactly one merge
    request. *)
Theorem returned_error_comes_from_a_call {S : Type} (w : world S) (s : S)
    (client : gitlab.Client) (owner name : string)
    (pull : CreateMergeRequestOptions.t) (githubLimiter pushLimiter : Ticker)
    (err : error) :
  let pid := (owner ++ "/" ++ name)%string in
  let r := run w (findOrCreateGitlabMR client owner name pull
                    githubLimiter pushLimiter) s in
  result r = Returned (None, Some err) ->
  (In (Created client pid pull (inr err)) (trace r) /\ already_exists err = false) \/
  In (Listed client (listOptions pull) (inr err)) (trace r) \/
  (err = not_one_MR /\
   exists existingMRs,
     In (Listed client (listOptions pull) (inl existingMRs)) (trace r) /\
     length existingMRs <> 1) \/
  exists mergeRequest,
    In (Updated client pid mergeRequest (updateOptions pull) (inr err)) (trace r).
Proof.
  intros pid r Hresult; subst pid r.
  by_shape w s client owner name pull githubLimiter pushLimiter; by_answer.
  - left. split; [simpl; auto|assumption].
  - right; left. simpl; auto 6.
  - right; right; left. split; [reflexivity|].
    exists existingMRs. split; [simpl; auto 6|assumption].
  - right; right; right. eexists. simpl; eauto 12.
Qed.

(** ** More on the title and the body *)

Lemma Cut_LF_before (s before after : string) :
  Cut s LF = Some (before, after) -> newline_free before.
Proof.
  unfold newline_free.
  revert before; induction s as [|c s IH]; intros before H; rewrite Cut_eq in H.
  - discriminate H.
  - unfold LF at 1 in H. simpl TrimPrefix in H.
    destruct (Ascii.eqb_spec c lf) as [->|Hc].
    + rewrite TrimPrefix_nil in H. injection H as <- <-. intros [].
    + destruct (Cut s LF) as [[b a]|]; [|discriminate H].
      injection H as <- <-. simpl. intros [Hin|Hin]; [congruence|].
      now apply (IH b).
Qed.

Lemma Cut_LF_absent (s : string) :
  Cut s LF = None -> newline_free s.
Proof.
  unfold newline_free.
  induction s as [|c s IH]; intros H; rewrite Cut_eq in H.
  - intros [].
  - unfold LF at 1 in H. simpl TrimPrefix in H.
    destruct (Ascii.eqb_spec c lf) as [->|Hc].
    + rewrite TrimPrefix_nil in H. discriminate H.
    + destruct (Cut s LF) as [[b a]|]; [discriminate H|].
      simpl. intros [Hin|Hin]; [congruence|]. now apply IH.
Qed.

(** The title and body by the cut of the message at its first line feed. *)
Lemma titleAndBody_cut (input : Input) :
  titleAndBody input =
  match Cut (CommitMessage input) LF with
  | Some (before, after) =>
      (before, if String.eqb (PRBody input) "" then after else "")
  | None => (CommitMessage input, "")
  end.
Proof.
  unfold titleAndBody. rewrite SplitN_2.
  destruct (Cut (CommitMessage input) LF) as [[before after]|]; simpl;
    [now destruct (String.eqb (PRBody input) "")|reflexivity].
Qed.

(** X9: whatever the commit message and the override body, the title handed
    to the creation holds no line feed. *)
Theorem title_is_a_single_line {S : Type} (w : world S) (s : S)
    (input : Input) (githubLimiter pushLimiter : Ticker)
    (client : gitlab.Client) (pid : string)
    (opt : CreateMergeRequestOptions.t) (answer : gitlab.MergeRequest + error) :
  In (Created client pid opt answer)
     (trace (run w (GitlabPush input githubLimiter pushLimiter) s)) ->
  exists title,
    CreateMergeRequestOptions.Title opt = Some title /\ newline_free title.
Proof.
  intros Hin.
  rewrite (pushed_created _ _ _ _ _ _ _ _ _ (GitlabPush_pushed w s input _ _) Hin).
  unfold desired; simpl. eexists; split; [reflexivity|].
  rewrite titleAndBody_cut.
  destruct (Cut (CommitMessage input) LF) as [[before after]|] eqn:E; simpl.
  - now apply Cut_LF_before in E.
  - now apply Cut_LF_absent.
Qed.

(** X10: without an override body nothing of the commit message is lost but
    the first line feed: the message is the title, a line feed and the
    description, or, when it holds no line feed, the title alone with an
    empty description. *)
Theorem title_and_description_recompose {S : Type} (w : world S) (s : S)
    (input : Input) (githubLimiter pushLimiter : Ticker)
    (client : gitlab.Client) (pid : string)
    (opt : CreateMergeRequestOptions.t) (answer : gitlab.MergeRequest + error) :
  PRBody input = "" ->
  In (Created client pid opt answer)
     (trace (run w (GitlabPush input githubLimiter pushLimiter) s)) ->
  exists title description,
    CreateMergeRequestOptions.Title opt = Some title /\
    CreateMergeRequestOptions.Description opt = Some description /\
    (CommitMessage input = (title ++ LF ++ description)%string \/
     (newline_free (CommitMessage input) /\
      CommitMessage input = title /\ description = "")).
Proof.
  intros Hbody Hin.
  rewrite (pushed_created _ _ _ _ _ _ _ _ _ (GitlabPush_pushed w s input _ _) Hin).
  unfold desired; simpl. do 2 eexists; split; [reflexivity|split; [reflexivity|]].
  rewrite titleAndBody_cut, Hbody.
  destruct (Cut (CommitMessage input) LF) as [[before after]|] eqn:E; simpl.
  - left. exact (Cut_sound _ _ _ _ E).
  - right. split; [now apply Cut_LF_absent|now split].
Qed.

(** ** More on the whole push *)

(** Splits the membership of an event in a trace given piece by piece. *)
Ltac walk :=
  repeat match goal with
    | H : In _ (_ :: _) |- _ => destruct H as [H|H]
    | H : In _ [] |- _ => contradiction H
    | H : In _ (_ ++ _) |- _ => apply in_app_or in H; destruct H as [H|H]
    | H : @eq event _ ?e |- _ => is_var e; subst e
    | H : @eq event _ _ |- _ => first [discriminate H | inversion H; subst; clear H]
    end.

(** What the events of a run of the reconciler are addressed to. *)
Lemma reconciled_events (client : gitlab.Client) (pid : string)
    (pull : CreateMergeRequestOptions.t) (githubLimiter pushLimiter : Ticker)
    (o : outcome (option gitlab.MergeRequest * option error)) (tr : list event)
    (e : event) :
  reconciled client pid pull githubLimiter pushLimiter o tr ->
  In e tr ->
  match e with
  | Received t => t = githubLimiter \/ t = pushLimiter
  | Created client' pid' opt _ => client' = client /\ pid' = pid /\ opt = pull
  | Listed client' opt _ => client' = client /\ opt = listOptions pull
  | Updated client' pid' _ opt _ =>
      client' = client /\ pid' = pid /\ opt = updateOptions pull
  | _ => False
  end.
Proof.
  destruct 1; intros Hin; walk; simpl; auto.
Qed.

(** In a run of the reconciler a failing step comes last and its error is
    the one returned. *)
Lemma reconciled_failing_step (client : gitlab.Client) (pid : string)
    (pull : CreateMergeRequestOptions.t) (githubLimiter pushLimiter : Ticker)
    (o : outcome (option gitlab.MergeRequest * option error)) (tr : list event)
    (e : event) :
  reconciled client pid pull githubLimiter pushLimiter o tr ->
  In e tr ->
  step_failed e = true ->
  o = Returned (None, Some (error_of e)) /\ exists before, tr = before ++ [e].
Proof.
  destruct 1; intros Hin Hfailed; walk; simpl in Hfailed;
    repeat match goal with
      | H : already_exists _ = _ |- _ => rewrite H in Hfailed
      end;
    try discriminate Hfailed;
    (split;
     [ try reflexivity
     | match goal with
       | |- exists before, ?l = before ++ [_] => exists (removelast l); reflexivity
       end ]).
  now destruct answer.
Qed.

(** A run of the reconciler that returns a merge request ends with a call of
    the merge request API. *)
Lemma reconciled_ends_with_a_call (client : gitlab.Client) (pid : string)
    (pull : CreateMergeRequestOptions.t) (githubLimiter pushLimiter : Ticker)
    (pr : gitlab.MergeRequest) (tr : list event) :
  reconciled client pid pull githubLimiter pushLimiter (Returned (Some pr, None)) tr ->
  exists before last, tr = before ++ [last] /\ is_mr_call last = true.
Proof.
  inversion 1; subst; by_answer;
    match goal with
    | |- exists before last, ?l = before ++ [last] /\ _ =>
        exists (removelast l); eexists; split; reflexivity
    end.
Qed.

(** Brings in the way a run of [GitlabPush] went and splits by it. *)
Ltac by_push w s input gh pl :=
  let H := fresh "Hpushed" in
  pose proof (GitlabPush_pushed w s input gh pl) as H;
  cbv zeta in H;
  destruct (run w (GitlabPush input gh pl) s) as [[?o ?s] ?tr];
  unfold result, trace in *; simpl fst in *; simpl snd in *;
  inversion H; subst; clear H; unfold preamble in *; cbn [app] in *.

(** X11: what the calls of a push are addressed to.  The git commands run in
    the plan directory; the creation names the pushed branch as source and
    master as target; the listing asks for the open merge requests of these
    two branches; the update names master and neither title nor description;
    every call that takes a project names owner/name. *)
Theorem calls_of_a_push_are_addressed {S : Type} (w : world S) (s : S)
    (input : Input) (githubLimiter pushLimiter : Ticker) (e : event) :
  let project := (RepoOwner input ++ "/" ++ RepoName input)%string in
  In e (trace (run w (GitlabPush input githubLimiter pushLimiter) s)) ->
  match e with
  | Ran dir cmd _ =>
      dir = PlanDir input /\ (cmd = gitLogCommand \/ cmd = gitPushCommand input)
  | ReadEnv key _ => key = "GITLAB_API_TOKEN" \/ key = "GITLAB_URL"
  | Received t => t = githubLimiter \/ t = pushLimiter
  | Created _ pid opt _ =>
      pid = project /\
      CreateMergeRequestOptions.SourceBranch opt = Some (BranchName input) /\
      CreateMergeRequestOptions.TargetBranch opt = Some "master"
  | Listed _ opt _ =>
      ListMergeRequestsOptions.SourceBranch opt = Some (BranchName input) /\
      ListMergeRequestsOptions.TargetBranch opt = Some "master" /\
      ListMergeRequestsOptions.State opt = Some "opened"
  | Updated _ pid _ opt _ =>
      pid = project /\
      UpdateMergeRequestOptions.TargetBranch opt = Some "master" /\
      UpdateMergeRequestOptions.Title opt = None /\
      UpdateMergeRequestOptions.Description opt = None
  | PipelinesListed _ pid _ _ => pid = project
  end.
Proof.
  intros project Hin; subst project.
  by_push w s input githubLimiter pushLimiter; walk; simpl; auto;
    match goal with
    | H : reconciled _ _ _ _ _ _ ?tr, Hin : In _ ?tr |- _ =>
        pose proof (reconciled_events _ _ _ _ _ _ _ _ H Hin) as Hevent;
        destruct e; try contradiction; simpl in Hevent; auto
    end.
  all: try (destruct Hevent as (_ & -> & ->); now repeat split).
  all: try (destruct Hevent as (_ & ->); now repeat split).
Qed.

(** X12: a push starts with git log, then git push, then the two reads of
    the environment, in this order and each only after the one before went
    through; a git command that fails ends the run, and git is not run again
    once the environment has been read. *)
Theorem push_starts_with_git {S : Type} (w : world S) (s : S)
    (input : Input) (githubLimiter pushLimiter : Ticker) :
  let tr := trace (run w (GitlabPush input githubLimiter pushLimiter) s) in
  exists logged rest,
    tr = Ran (PlanDir input) gitLogCommand logged :: rest /\
    match snd logged with
    | Some _ => rest = []
    | None =>
        exists sent rest',
          rest = Ran (PlanDir input) (gitPushCommand input) sent :: rest' /\
          match snd sent with
          | Some _ => rest' = []
          | None =>
              exists token url calls,
                rest' = ReadEnv "GITLAB_API_TOKEN" token
                        :: ReadEnv "GITLAB_URL" url
                        :: Received pushLimiter
                        :: Received githubLimiter :: calls /\
                filter is_git calls = []
          end
    end.
Proof.
  intros tr; subst tr.
  assert (Hcalls : forall client pid pull o tr,
             reconciled client pid pull githubLimiter pushLimiter o tr ->
             exists calls,
               tr = Received pushLimiter :: Received githubLimiter :: calls /\
               forall more, filter is_git (calls ++ more) = filter is_git more).
  { destruct 1; eexists; split; reflexivity. }
  by_push w s input githubLimiter pushLimiter;
    try match goal with
      | H : reconciled _ _ _ _ _ _ _ |- _ =>
          destruct (Hcalls _ _ _ _ _ H) as (calls & -> & Hgit)
      end;
    do 2 eexists; (split; [reflexivity|]); simpl; try reflexivity;
    do 2 eexists; (split; [reflexivity|]); simpl; try reflexivity;
    do 3 eexists; (split; [reflexivity|]);
    rewrite ?Hgit; try reflexivity.
  rewrite <- (app_nil_r calls). now rewrite Hgit.
Qed.

(** X13: a step that fails is the last thing a push does, and it decides the
    error: the output of the git command, the error of the merge request
    call as it came, the reconciler's error for a listing that does not hold
    exactly one merge request, the fixed error for the pipeline listing; the
    [Output] is the zero one. *)
Theorem failing_step_ends_the_push {S : Type} (w : world S) (s : S)
    (input : Input) (githubLimiter pushLimiter : Ticker) (e : event) :
  let r := run w (GitlabPush input githubLimiter pushLimiter) s in
  In e (trace r) ->
  step_failed e = true ->
  result r = Returned (Output_failed, Some (error_of e)) /\
  exists before, trace r = before ++ [e].
Proof.
  intros r Hin Hfailed; subst r.
  by_push w s input githubLimiter pushLimiter; walk;
    try discriminate Hfailed;
    try match goal with
      | H : reconciled _ _ _ _ _ _ ?tr, Hin : In _ ?tr |- _ =>
          destruct (reconciled_failing_step _ _ _ _ _ _ _ _ H Hin Hfailed)
            as (Hresult & before & ->);
          try discriminate Hresult
      end.
  - split; [reflexivity|]. now exists [].
  - split; [reflexivity|]. now eexists [_].
  - injection Hresult as ->. split; [reflexivity|].
    eexists (_ :: _ :: _ :: _ :: _); reflexivity.
  - split; [reflexivity|].
    eexists (_ :: _ :: _ :: _ :: _); reflexivity.
Qed.

(** X14: the pipeline listing is the last call of a push and comes right
    after a call of the merge request API: no permit is taken for it. *)
Theorem pipeline_listing_takes_no_permit {S : Type} (w : world S) (s : S)
    (input : Input) (githubLimiter pushLimiter : Ticker)
    (client : gitlab.Client) (pid : string)
    (opt : ListProjectPipelinesOptions.t)
    (answer : list gitlab.PipelineInfo + error) :
  let tr := trace (run w (GitlabPush input githubLimiter pushLimiter) s) in
  In (PipelinesListed client pid opt answer) tr ->
  exists before call,
    tr = before ++ [call; PipelinesListed client pid opt answer] /\
    is_mr_call call = true.
Proof.
  intros tr Hin; subst tr.
  by_push w s input githubLimiter pushLimiter; walk;
    try match goal with
      | H : reconciled _ _ _ _ _ _ ?tr, Hin : In _ ?tr |- _ =>
          now destruct (reconciled_events _ _ _ _ _ _ _ _ H Hin)
      end;
    match goal with
    | H : reconciled _ _ _ _ _ _ _ |- _ =>
        destruct (reconciled_ends_with_a_call _ _ _ _ _ _ _ H)
          as (before & call & -> & Hcall)
    end;
    eexists (_ :: _ :: _ :: _ :: before), call;
    (split; [simpl; now rewrite <- app_assoc | exact Hcall]).
Qed.

(** X15: what a push returns without error.  The merge request it reports
    is one the environment answered with (created, listed alone, or answered
    by the update); the commit, the number and the URL are those of that
    merge request, not the output of git log; the pipelines were listed by
    the SHA of that merge request, and the status is that of the first
    pipeline listed, or "No pipeline was found" when none was. *)
Theorem successful_push_reports_the_MR {S : Type} (w : world S) (s : S)
    (input : Input) (githubLimiter pushLimiter : Ticker) (out : Output) :
  let r := run w (GitlabPush input githubLimiter pushLimiter) s in
  result r = Returned (out, None) ->
  exists client pid pr pipeline pipelineInfo,
    (In (Created client pid (desired input) (inl pr)) (trace r) \/
     In (Listed client (listOptions (desired input)) (inl [pr])) (trace r) \/
     exists mergeRequest,
       In (Updated client pid mergeRequest (updateOptions (desired input)) (inl pr))
          (trace r)) /\
    In (PipelinesListed client pid
          {| ListProjectPipelinesOptions.SHA := Some (gitlab.SHA pr) |}
          (inl pipeline)) (trace r) /\
    gitlab.Pipeline pr = Some pipelineInfo /\
    out = {| Success := true;
             CommitSHA := gitlab.SHA pr;
             PullRequestNumber := gitlab.ID pr;
             PullRequestURL := gitlab.WebURL pr;
             PullRequestCombinedStatus :=
               match pipeline with
               | [] => "No pipeline was found"
               | first :: _ => gitlab.Status first
               end;
             PullRequestAssignee := PRAssignee input;
             CircleCIBuildURL := gitlab.Ref pipelineInfo |}.
Proof.
  intros r Hresult; subst r.
  by_push w s input githubLimiter pushLimiter; by_answer.
  match goal with
  | H : reconciled ?client ?pid _ _ _ _ _ |- _ =>
      exists client, pid, pr, pipeline, pipelineInfo; inversion H; subst; by_answer
  end;
    (split; [|split; [|split]];
     [ | do 4 right; apply in_or_app; right; now left
       | assumption
       | now destruct pipeline ]).
  - left. simpl; auto 10.
  - right; left. simpl; auto 12.
  - right; right. eexists. simpl; eauto 14.
Qed.

(** ** The further theorems on concrete runs *)

Lemma created_MR_is_returned_witness :
  let r := run (scripted Runs.created)
             (findOrCreateGitlabMR Examples.client "pipedrive" "microplane"
                Examples.pull Examples.githubLimiter Examples.pushLimiter) tt in
  In (Created Examples.client "pipedrive/microplane" Examples.pull (inl Runs.current))
     (trace r) /\
  result r = Returned (Some Runs.current, None) /\
  trace r = [Received Examples.pushLimiter; Received Examples.githubLimiter;
             Created Examples.client "pipedrive/microplane" Examples.pull
               (inl Runs.current)].
Proof.
  intros r.
  assert (H : In (Created Examples.client "pipedrive/microplane" Examples.pull
                    (inl Runs.current)) (trace r))
    by (do 2 right; left; reflexivity).
  split; [exact H|].
  exact (created_MR_is_returned (scripted Runs.created) tt Examples.client
           "pipedrive" "microplane" Examples.pull Examples.githubLimiter
           Examples.pushLimiter _ _ _ _ H).
Defined.

Lemma listing_failure_is_returned_witness :
  let r := run (scripted Runs.list_fails)
             (findOrCreateGitlabMR Examples.client "pipedrive" "microplane"
                Examples.pull Examples.githubLimiter Examples.pushLimiter) tt in
  In (Listed Examples.client (listOptions Examples.pull)
        (inr (client_error "500 Internal Server Error"))) (trace r) /\
  result r = Returned (None, Some (client_error "500 Internal Server Error")) /\
  filter is_update (trace r) = [].
Proof.
  intros r.
  assert (H : In (Listed Examples.client (listOptions Examples.pull)
                    (inr (client_error "500 Internal Server Error"))) (trace r))
    by (do 4 right; left; reflexivity).
  split; [exact H|].
  exact (listing_failure_is_returned (scripted Runs.list_fails) tt Examples.client
           "pipedrive" "microplane" Examples.pull Examples.githubLimiter
           Examples.pushLimiter _ _ _ H).
Defined.

Lemma up_to_date_MR_is_returned_witness :
  let r := run (scripted Runs.up_to_date)
             (findOrCreateGitlabMR Examples.client "pipedrive" "microplane"
                Examples.pull Examples.githubLimiter Examples.pushLimiter) tt in
  In (Listed Examples.client (listOptions Examples.pull) (inl [Runs.current]))
     (trace r) /\
  CreateMergeRequestOptions.Title Examples.pull = Some (gitlab.Title Runs.current) /\
  CreateMergeRequestOptions.Description Examples.pull
  = Some (gitlab.Description Runs.current) /\
  result r = Returned (Some Runs.current, None) /\
  filter is_update (trace r) = [].
Proof.
  intros r.
  assert (H : In (Listed Examples.client (listOptions Examples.pull)
                    (inl [Runs.current])) (trace r))
    by (do 4 right; left; reflexivity).
  split; [exact H|]. split; [reflexivity|]. split; [reflexivity|].
  exact (up_to_date_MR_is_returned (scripted Runs.up_to_date) tt Examples.client
           "pipedrive" "microplane" Examples.pull Examples.githubLimiter
           Examples.pushLimiter _ _ _ H eq_refl eq_refl).
Defined.

Lemma update_carries_target_branch_only_witness :
  let r := run (scripted Runs.retitled)
             (findOrCreateGitlabMR Examples.client "pipedrive" "microplane"
                Examples.pull Examples.githubLimiter Examples.pushLimiter) tt in
  let opt := updateOptions Examples.pull in
  In (Updated Examples.client "pipedrive/microplane" 7 opt (inl Runs.current))
     (trace r) /\
  UpdateMergeRequestOptions.Title opt = None /\
  UpdateMergeRequestOptions.Description opt = None /\
  UpdateMergeRequestOptions.TargetBranch opt = Some "master" /\
  exists pr,
    In (Listed Examples.client (listOptions Examples.pull) (inl [pr])) (trace r) /\
    7%Z = gitlab.ID pr.
Proof.
  intros r opt.
  assert (H : In (Updated Examples.client "pipedrive/microplane" 7 opt
                    (inl Runs.current)) (trace r))
    by (do 6 right; left; reflexivity).
  split; [exact H|].
  exact (proj2 (proj2 (update_carries_target_branch_only (scripted Runs.retitled) tt
                         Examples.client "pipedrive" "microplane" Examples.pull
                         Examples.githubLimiter Examples.pushLimiter _ _ _ _ _ H))).
Defined.

Lemma update_answer_is_the_result_witness :
  let r := run (scripted Runs.update_fails)
             (findOrCreateGitlabMR Examples.client "pipedrive" "microplane"
                Examples.pull Examples.githubLimiter Examples.pushLimiter) tt in
  let r' := run (scripted Runs.retitled)
              (findOrCreateGitlabMR Examples.client "pipedrive" "microplane"
                 Examples.pull Examples.githubLimiter Examples.pushLimiter) tt in
  (In (Updated Examples.client "pipedrive/microplane" 7 (updateOptions Examples.pull)
         (inr (client_error "403 Forbidden"))) (trace r) /\
   result r = Returned (None, Some (client_error "403 Forbidden"))) /\
  (In (Updated Examples.client "pipedrive/microplane" 7 (updateOptions Examples.pull)
         (inl Runs.current)) (trace r') /\
   result r' = Returned (Some Runs.current, None)).
Proof.
  intros r r'.
  assert (H : In (Updated Examples.client "pipedrive/microplane" 7
                    (updateOptions Examples.pull)
                    (inr (client_error "403 Forbidden"))) (trace r))
    by (do 6 right; left; reflexivity).
  assert (H' : In (Updated Examples.client "pipedrive/microplane" 7
                     (updateOptions Examples.pull) (inl Runs.current)) (trace r'))
    by (do 6 right; left; reflexivity).
  split; (split; [eassumption|]).
  - exact (update_answer_is_the_result (scripted Runs.update_fails) tt
             Examples.client "pipedrive" "microplane" Examples.pull
             Examples.githubLimiter Examples.pushLimiter _ _ _ _ _ H).
  - exact (update_answer_is_the_result (scripted Runs.retitled) tt
             Examples.client "pipedrive" "microplane" Examples.pull
             Examples.githubLimiter Examples.pushLimiter _ _ _ _ _ H').
Defined.


Lemma returned_MR_comes_from_a_call_witness :
  let pid := "pipedrive/microplane" in
  let r := run (scripted Runs.retitled)
             (findOrCreateGitlabMR Examples.client "pipedrive" "microplane"
                Examples.pull Examples.githubLimiter Examples.pushLimiter) tt in
  result r = Returned (Some Runs.current, None) /\
  (In (Created Examples.client pid Examples.pull (inl Runs.current)) (trace r) \/
   In (Listed Examples.client (listOptions Examples.pull) (inl [Runs.current]))
      (trace r) \/
   exists mergeRequest,
     In (Updated Examples.client pid mergeRequest (updateOptions Examples.pull)
           (inl Runs.current)) (trace r)).
Proof.
  intros pid r. split; [reflexivity|].
  exact (returned_MR_comes_from_a_call (scripted Runs.retitled) tt Examples.client
           "pipedrive" "microplane" Examples.pull Examples.githubLimiter
           Examples.pushLimiter Runs.current eq_refl).
Defined.

Lemma returned_error_comes_from_a_call_witness :
  let pid := "pipedrive/microplane" in
  let r := run (scripted Runs.twins)
             (findOrCreateGitlabMR Examples.client "pipedrive" "microplane"
                Examples.pull Examples.githubLimiter Examples.pushLimiter) tt in
  result r = Returned (None, Some not_one_MR) /\
  ((In (Created Examples.client pid Examples.pull (inr not_one_MR)) (trace r) /\
    already_exists not_one_MR = false) \/
   In (Listed Examples.client (listOptions Examples.pull) (inr not_one_MR)) (trace r) \/
   (not_one_MR = not_one_MR /\
    exists existingMRs,
      In (Listed Examples.client (listOptions Examples.pull) (inl existingMRs))
         (trace r) /\
      length existingMRs <> 1) \/
   exists mergeRequest,
     In (Updated Examples.client pid mergeRequest (updateOptions Examples.pull)
           (inr not_one_MR)) (trace r)).
Proof.
  intros pid r. split; [reflexivity|].
  exact (returned_error_comes_from_a_call (scripted Runs.twins) tt Examples.client
           "pipedrive" "microplane" Examples.pull Examples.githubLimiter
           Examples.pushLimiter not_one_MR eq_refl).
Defined.

Lemma title_is_a_single_line_witness :
  let r := run (scripted Runs.created)
             (GitlabPush Examples.fix_bug Examples.githubLimiter
                Examples.pushLimiter) tt in
  In (Created Runs.client "pipedrive/microplane" (desired Examples.fix_bug)
        (inl Runs.current)) (trace r) /\
  exists title,
    CreateMergeRequestOptions.Title (desired Examples.fix_bug) = Some title /\
    newline_free title.
Proof.
  intros r.
  assert (H : In (Created Runs.client "pipedrive/microplane"
                    (desired Examples.fix_bug) (inl Runs.current)) (trace r))
    by (do 6 right; left; reflexivity).
  split; [exact H|].
  exact (title_is_a_single_line (scripted Runs.created) tt Examples.fix_bug
           Examples.githubLimiter Examples.pushLimiter _ _ _ _ H).
Defined.

Lemma title_and_description_recompose_witness :
  let r := run (scripted Runs.created)
             (GitlabPush Examples.fix_bug Examples.githubLimiter
                Examples.pushLimiter) tt in
  PRBody Examples.fix_bug = "" /\
  In (Created Runs.client "pipedrive/microplane" (desired Examples.fix_bug)
        (inl Runs.current)) (trace r) /\
  exists title description,
    CreateMergeRequestOptions.Title (desired Examples.fix_bug) = Some title /\
    CreateMergeRequestOptions.Description (desired Examples.fix_bug)
    = Some description /\
    (CommitMessage Examples.fix_bug = (title ++ LF ++ description)%string \/
     (newline_free (CommitMessage Examples.fix_bug) /\
      CommitMessage Examples.fix_bug = title /\ description = "")).
Proof.
  intros r.
  assert (H : In (Created Runs.client "pipedrive/microplane"
                    (desired Examples.fix_bug) (inl Runs.current)) (trace r))
    by (do 6 right; left; reflexivity).
  split; [reflexivity|]. split; [exact H|].
  exact (title_and_description_recompose (scripted Runs.created) tt
           Examples.fix_bug Examples.githubLimiter Examples.pushLimiter
           _ _ _ _ eq_refl H).
Defined.

Lemma calls_of_a_push_are_addressed_witness :
  let r := run (scripted Runs.retitled)
             (GitlabPush Examples.fix_bug Examples.githubLimiter
                Examples.pushLimiter) tt in
  let opt := listOptions (desired Examples.fix_bug) in
  In (Listed Runs.client opt (inl [Examples.stale])) (trace r) /\
  ListMergeRequestsOptions.SourceBranch opt = Some "fix-1" /\
  ListMergeRequestsOptions.TargetBranch opt = Some "master" /\
  ListMergeRequestsOptions.State opt = Some "opened".
Proof.
  intros r opt.
  assert (H : In (Listed Runs.client opt (inl [Examples.stale])) (trace r))
    by (do 8 right; left; reflexivity).
  split; [exact H|].
  exact (calls_of_a_push_are_addressed (scripted Runs.retitled) tt
           Examples.fix_bug Examples.githubLimiter Examples.pushLimiter _ H).
Defined.

Lemma failing_step_ends_the_push_witness :
  let r := run (scripted Runs.update_fails)
             (GitlabPush Examples.fix_bug Examples.githubLimiter
                Examples.pushLimiter) tt in
  let r' := run (scripted Runs.push_fails)
              (GitlabPush Examples.fix_bug Examples.githubLimiter
                 Examples.pushLimiter) tt in
  let refused :=
    Updated Runs.client "pipedrive/microplane" 7
      (updateOptions (desired Examples.fix_bug))
      (inr (client_error "403 Forbidden")) in
  let rejected :=
    Ran "/tmp/plan" (gitPushCommand Examples.fix_bug) Runs.rejected in
  (In refused (trace r) /\
   step_failed refused = true /\
   result r = Returned (Output_failed, Some (client_error "403 Forbidden")) /\
   exists before, trace r = before ++ [refused]) /\
  (In rejected (trace r') /\
   step_failed rejected = true /\
   result r' = Returned (Output_failed, Some (errors_New "remote: permission denied")) /\
   exists before, trace r' = before ++ [rejected]).
Proof.
  intros r r' refused rejected.
  assert (H : In refused (trace r)) by (do 10 right; left; reflexivity).
  assert (H' : In rejected (trace r')) by (right; left; reflexivity).
  split; (split; [eassumption|]); (split; [reflexivity|]).
  - exact (failing_step_ends_the_push (scripted Runs.update_fails) tt
             Examples.fix_bug Examples.githubLimiter Examples.pushLimiter
             refused H eq_refl).
  - exact (failing_step_ends_the_push (scripted Runs.push_fails) tt
             Examples.fix_bug Examples.githubLimiter Examples.pushLimiter
             rejected H' eq_refl).
Defined.

Lemma pipeline_listing_takes_no_permit_witness :
  let r := run (scripted Runs.created)
             (GitlabPush Examples.fix_bug Examples.githubLimiter
                Examples.pushLimiter) tt in
  let listing :=
    PipelinesListed Runs.client "pipedrive/microplane"
      {| ListProjectPipelinesOptions.SHA := Some "89abcdef" |} Runs.green in
  In listing (trace r) /\
  exists before call,
    trace r = before ++ [call; listing] /\ is_mr_call call = true.
Proof.
  intros r listing.
  assert (H : In listing (trace r)) by (do 7 right; left; reflexivity).
  split; [exact H|].
  exact (pipeline_listing_takes_no_permit (scripted Runs.created) tt
           Examples.fix_bug Examples.githubLimiter Examples.pushLimiter
           _ _ _ _ H).
Defined.

Lemma successful_push_reports_the_MR_witness :
  let r := run (scripted Runs.created)
             (GitlabPush Examples.fix_bug Examples.githubLimiter
                Examples.pushLimiter) tt in
  let out :=
    {| Success := true;
       CommitSHA := "89abcdef";
       PullRequestNumber := 7;
       PullRequestURL :=
         "https://gitlab.example/pipedrive/microplane/merge_requests/7";
       PullRequestCombinedStatus := "success";
       PullRequestAssignee := "";
       CircleCIBuildURL := "fix-1" |} in
  result r = Returned (out, None) /\
  exists client pid pr pipeline pipelineInfo,
    (In (Created client pid (desired Examples.fix_bug) (inl pr)) (trace r) \/
     In (Listed client (listOptions (desired Examples.fix_bug)) (inl [pr])) (trace r) \/
     exists mergeRequest,
       In (Updated client pid mergeRequest
             (updateOptions (desired Examples.fix_bug)) (inl pr)) (trace r)) /\
    In (PipelinesListed client pid
          {| ListProjectPipelinesOptions.SHA := Some (gitlab.SHA pr) |}
          (inl pipeline)) (trace r) /\
    gitlab.Pipeline pr = Some pipelineInfo /\
    out = {| Success := true;
             CommitSHA := gitlab.SHA pr;
             PullRequestNumber := gitlab.ID pr;
             PullRequestURL := gitlab.WebURL pr;
             PullRequestCombinedStatus :=
               match pipeline with
               | [] => "No pipeline was found"
               | first :: _ => gitlab.Status first
               end;
             PullRequestAssignee := PRAssignee Examples.fix_bug;
             CircleCIBuildURL := gitlab.Ref pipelineInfo |}.
Proof.
  intros r out. split; [reflexivity|].
  exact (successful_push_reports_the_MR (scripted Runs.created) tt
           Examples.fix_bug Examples.githubLimiter Examples.pushLimiter
           out eq_refl).
Defined.

(** ** Counting the calls *)

Lemma count_app (p : event -> bool) (tr tr' : list event) :
  count p (tr ++ tr') = count p tr + count p tr'.
Proof. unfold count. now rewrite filter_app, length_app. Qed.

Lemma count_cons (p : event -> bool) (e : event) (tr : list event) :
  count p (e :: tr) = (if p e then 1 else 0) + count p tr.
Proof. unfold count; simpl. now destruct (p e). Qed.

(** The counts of a run of the reconciler. *)
Lemma reconciled_counts (client : gitlab.Client) (pid : string)
    (pull : CreateMergeRequestOptions.t) (githubLimiter pushLimiter : Ticker)
    (o : outcome (option gitlab.MergeRequest * option error)) (tr : list event) :
  reconciled client pid pull githubLimiter pushLimiter o tr ->
  count is_receive tr = count is_mr_call tr + 1 /\
  count is_create tr = 1 /\
  count is_list tr <= 1 /\
  count is_update tr <= 1 /\
  count is_update tr <= count is_list tr /\
  count is_git tr = 0 /\
  count is_env tr = 0 /\
  count is_pipelines tr = 0.
Proof.
  destruct 1; cbv [count filter length is_receive is_mr_call is_create is_list
                   is_update is_git is_env is_pipelines orb Nat.add];
    repeat split; lia.
Qed.

(** X16: every call of the merge request API in a push is paid for by one
    permit, and the creation by one more: the permits received are as many
    as the creations, listings and updates together, plus one when the
    creation was reached.  The pipeline listing is not counted in. *)
Theorem permits_match_the_calls {S : Type} (w : world S) (s : S)
    (input : Input) (githubLimiter pushLimiter : Ticker) :
  let tr := trace (run w (GitlabPush input githubLimiter pushLimiter) s) in
  count is_receive tr = count is_mr_call tr + count is_create tr.
Proof.
  intros tr; subst tr.
  by_push w s input githubLimiter pushLimiter; try reflexivity;
    match goal with
    | H : reconciled _ _ _ _ _ _ _ |- _ =>
        destruct (reconciled_counts _ _ _ _ _ _ _ H) as (Hr & Hc & _)
    end;
    repeat (rewrite count_cons || rewrite count_app);
    rewrite Hr, Hc; cbn; lia.
Qed.

(** X17: nothing is tried twice in a push: at most two git commands, two
    reads of the environment, one creation, one listing, one update and one
    pipeline listing; an update only after a listing. *)
Theorem no_call_is_repeated {S : Type} (w : world S) (s : S)
    (input : Input) (githubLimiter pushLimiter : Ticker) :
  let tr := trace (run w (GitlabPush input githubLimiter pushLimiter) s) in
  count is_git tr <= 2 /\
  count is_env tr <= 2 /\
  count is_create tr <= 1 /\
  count is_list tr <= 1 /\
  count is_update tr <= count is_list tr /\
  count is_pipelines tr <= 1.
Proof.
  intros tr; subst tr.
  by_push w s input githubLimiter pushLimiter;
    try (cbv [count filter length is_create is_list is_update is_git is_env
              is_pipelines]; repeat split; lia);
    match goal with
    | H : reconciled _ _ _ _ _ _ _ |- _ =>
        destruct (reconciled_counts _ _ _ _ _ _ _ H)
          as (_ & Hc & Hl & Hu & Hul & Hg & He & Hp)
    end;
    repeat (rewrite count_cons || rewrite count_app);
    rewrite ?Hc, ?Hg, ?He, ?Hp; cbn; repeat split; lia.
Qed.
